(** * The VM dashboard controller of [src/index.tsx]

    A shallow embedding of the [App] component's state, its two derived
    views ([allZones], [filteredVms]) and its three asynchronous
    operations ([fetchVms], [handleTogglePower], [handleConnect]),
    followed by the properties the specification states about them.

    Conventions of the embedding.
    - A JavaScript string is a [string]: a sequence of code units, here
      the units below 256 (Latin-1), which [ascii] holds.  On that range
      [toLowerCase] works unit by unit: A-Z and the accented capitals
      U+00C0-U+00DE (but for the sign U+00D7) go 32 up, every other unit
      is unchanged.  Beyond Latin-1 the built-in depends on the context
      of a letter; [Wide] models it on UTF-16 code units for the name
      test of the filter, and contains the Latin-1 model
      ([filteredVms_widen]).
    - React state is the record [ControllerState]; a setter writes its
      field at once and is recorded in the trace of the operation.
    - An [async] function is run to completion; what the network answers
      at each [await fetch(...)] is an argument of the operation.
    - An exception is the [message] of the thrown [Error] object, which
      is all the handlers read. *)

From Stdlib Require Import List String Ascii Bool ZArith NArith Lia.
From Stdlib Require Import Sorting.Sorted.
From Stdlib Require OrderedTypeEx.
Import ListNotations.

Local Open Scope list_scope.
Local Open Scope string_scope.

(** ** Strings: the built-ins the program calls *)

Module Js.

Definition in_range (lo hi c : ascii) : bool :=
  ((lo <=? c) && (c <=? hi))%char.

(** The units with a lower-case form: A-Z, and U+00C0-U+00DE (192-222)
    but for the multiplication sign U+00D7 (215). *)
Definition is_upper (c : ascii) : bool :=
  in_range "A" "Z" c || (in_range "192" "222" c && negb (c =? "215")%char).

(** One code unit of [String.prototype.toLowerCase]. *)
Definition lower_unit (c : ascii) : ascii :=
  if is_upper c then ascii_of_N (N_of_ascii c + 32) else c.

(** [s.toLowerCase()] on a Latin-1 string. *)
Fixpoint toLowerCase (s : string) : string :=
  match s with
  | EmptyString => EmptyString
  | String c s' => String (lower_unit c) (toLowerCase s')
  end.

(** [s.includes(t)]: [t] occurs in [s] at some position. *)
Fixpoint includes (s t : string) : bool :=
  String.prefix t s
  || match s with
     | EmptyString => false
     | String _ s' => includes s' t
     end.

(** A string in a boolean position ([x || y], [x ? y : z]). *)
Definition truthy_string (s : string) : bool :=
  negb (s =? "").

(** The comparison [Array.prototype.sort] uses without a comparator:
    code-unit order of the strings. *)
Definition SortCompare (x y : string) : comparison := String.compare x y.

Fixpoint sort_insert (x : string) (l : list string) : list string :=
  match l with
  | [] => [x]
  | y :: l' =>
      match SortCompare x y with
      | Gt => y :: sort_insert x l'
      | _ => x :: l
      end
  end.

(** [arr.sort()] on an array of strings. *)
Fixpoint sort (l : list string) : list string :=
  match l with
  | [] => []
  | x :: l' => sort_insert x (sort l')
  end.

(** [set.has(x)] on the insertion-ordered elements of a [Set]. *)
Definition Set_has (elems : list string) (x : string) : bool :=
  existsb (String.eqb x) elems.

(** [set.add(x)]: a new element goes last, a present one is ignored. *)
Definition Set_add (elems : list string) (x : string) : list string :=
  if Set_has elems x then elems else (elems ++ [x])%list.

(** [Array.from(new Set(arr))]: the elements of [arr] in order of first
    occurrence. *)
Definition Array_from_new_Set (arr : list string) : list string :=
  fold_left Set_add arr [].

End Js.

(** ** Data model *)

Inductive VMStatus : Type := Running | Stopped | Provisioning.

(** The string a [VMStatus] is at run time. *)
Definition VMStatus_string (s : VMStatus) : string :=
  match s with
  | Running => "Running"
  | Stopped => "Stopped"
  | Provisioning => "Provisioning"
  end.

Record VM : Type := mkVM {
  id : string;
  name : string;
  zoneRegion : string;
  ipExternal : option string;
  ipInternal : string;
  machineType : string;
  status : VMStatus
}.

Record ControllerState : Type := mkState {
  vms : list VM;
  searchTerm : string;
  statusFilter : string;
  zoneFilter : string;
  isLoading : bool;
  error : option string
}.

(** The state [useState] starts from. *)
Definition initial_state : ControllerState :=
  {| vms := []; searchTerm := ""; statusFilter := "Todos";
     zoneFilter := "Todas"; isLoading := false; error := None |}.

(** ** Derived views *)

(** [Array.from(new Set(vms.map(vm => vm.zoneRegion))).sort()] *)
Definition allZones (vms : list VM) : list string :=
  Js.sort (Js.Array_from_new_Set (map zoneRegion vms)).

Definition matches_search (searchTerm : string) (vm : VM) : bool :=
  Js.includes (Js.toLowerCase (name vm)) (Js.toLowerCase searchTerm).

Definition matches_status (statusFilter : string) (vm : VM) : bool :=
  (statusFilter =? "Todos") || (VMStatus_string (status vm) =? statusFilter).

Definition matches_zone (zoneFilter : string) (vm : VM) : bool :=
  (zoneFilter =? "Todas") || (zoneRegion vm =? zoneFilter).

(** The three chained [.filter] calls. *)
Definition filteredVms (vms : list VM)
    (searchTerm statusFilter zoneFilter : string) : list VM :=
  filter (matches_zone zoneFilter)
    (filter (matches_status statusFilter)
       (filter (matches_search searchTerm) vms)).

(** ** JSON values and the operations the program applies to them *)

(** A JSON number, as far as the program can observe one: whether it is
    zero (the only falsy number [JSON.parse] yields) and the text
    [Number.prototype.toString] gives for it. *)
Record Number : Type := mkNumber {
  Number_is_zero : bool;
  Number_toString : string
}.

#[warnings="-register-all"]
Inductive Json : Type :=
| JNull
| JBool (b : bool)
| JNumber (n : Number)
| JString (s : string)
| JArray (elems : list Json)
| JObject (fields : list (string * Json)).

(** The thrown object of a [throw], a rejected promise or a failing
    built-in: an [Error] (or subclass) and its [message]. *)
Record JsError : Type := mkError { message : string }.

Inductive Completion (A : Type) : Type :=
| Normal (a : A)
| Throw (e : JsError).
Arguments Normal {A} a.
Arguments Throw {A} e.

Module JsValue.

Fixpoint lookup (key : string) (fields : list (string * Json)) : option Json :=
  match fields with
  | [] => None
  | (k, v) :: rest => if k =? key then Some v else lookup key rest
  end.

(** The message of the [TypeError] a property read on [null] throws
    (the wording is the engine's; this is V8's). *)
Definition TypeError_null (key : string) : JsError :=
  {| message := "Cannot read properties of null (reading '" ++ key ++ "')" |}.

(** [v.key] for a parsed JSON value [v]; [None] is [undefined].  The
    keys the program reads (detail, mensaje, comando_ssh) are on no
    built-in prototype, so only an object's own fields can answer. *)
Definition get (v : Json) (key : string) : Completion (option Json) :=
  match v with
  | JNull => Throw (TypeError_null key)
  | JObject fields => Normal (lookup key fields)
  | _ => Normal None
  end.

Definition ToBoolean (v : option Json) : bool :=
  match v with
  | None => false
  | Some JNull => false
  | Some (JBool b) => b
  | Some (JNumber n) => negb (Number_is_zero n)
  | Some (JString s) => Js.truthy_string s
  | Some (JArray _) => true
  | Some (JObject _) => true
  end.

(** The [TypeError] of a conversion to string that finds no primitive
    (the wording is the engine's; this is V8's). *)
Definition TypeError_primitive : JsError :=
  {| message := "Cannot convert object to primitive value" |}.

(** [ToString] of a parsed JSON value.  An object is converted by its
    [toString] method: the inherited one gives "[object Object]"; an own
    [toString] property, which parsed JSON cannot make callable, hides it,
    [valueOf] then gives back the object and the conversion throws.  An
    array is its elements joined by commas, [null] elements contributing
    nothing, the first element that cannot be converted throwing. *)
Fixpoint ToString (v : Json) : Completion string :=
  match v with
  | JNull => Normal "null"
  | JBool true => Normal "true"
  | JBool false => Normal "false"
  | JNumber n => Normal (Number_toString n)
  | JString s => Normal s
  | JArray elems =>
      let element (x : Json) : Completion string :=
        match x with JNull => Normal "" | _ => ToString x end in
      (fix join (l : list Json) : Completion string :=
         match l with
         | [] => Normal ""
         | [x] => element x
         | x :: l' =>
             match element x with
             | Throw e => Throw e
             | Normal first =>
                 match join l' with
                 | Throw e => Throw e
                 | Normal others => Normal (first ++ "," ++ others)
                 end
             end
         end) elems
  | JObject fields =>
      match lookup "toString" fields with
      | Some _ => Throw TypeError_primitive
      | None => Normal "[object Object]"
      end
  end.

(** A value inside a template literal. *)
Definition interpolate (v : option Json) : Completion string :=
  match v with
  | None => Normal "undefined"
  | Some x => ToString x
  end.

(** [v || fallback] with a string literal on the right. *)
Definition or_else (v : option Json) (fallback : string) : Json :=
  match v with
  | Some x => if ToBoolean v then x else JString fallback
  | None => JString fallback
  end.

(** [new Error(v)]: the message is [ToString(v)], whose exception, if
    any, is thrown instead. *)
Definition new_Error (v : Json) : Completion JsError :=
  match ToString v with
  | Throw e => Throw e
  | Normal s => Normal {| message := s |}
  end.

(** [s || fallback] on strings. *)
Definition or_string (s fallback : string) : string :=
  if Js.truthy_string s then s else fallback.

End JsValue.

(** ** The network *)

(** What [await response.json()] does: throw the parser's [SyntaxError],
    or give the parsed body. *)
Inductive JsonOutcome (T : Type) : Type :=
| JsonThrows (e : JsError)
| JsonValue (v : T).
Arguments JsonThrows {T} e.
Arguments JsonValue {T} v.

(** The statuses [response.ok] is true for. *)
Definition ok_status (http_status : Z) : bool :=
  ((200 <=? http_status) && (http_status <=? 299))%Z.

(** The body of a response: of the endpoint's declared type [T] when the
    response is ok (the program reads it at that type unchecked), any
    JSON value otherwise (the program reads it as [any]). *)
Definition Payload (T : Type) (ok : bool) : Type :=
  if ok then T else Json.

Record Response (T : Type) : Type := mkResponse {
  http_status : Z;
  json : JsonOutcome (Payload T (ok_status http_status))
}.
Arguments mkResponse {T} http_status json.
Arguments http_status {T} r.
Arguments json {T} r.

(** [response.ok] *)
Definition ok {T : Type} (r : Response T) : bool := ok_status (http_status r).

(** What [await fetch(...)] does: reject (no response was obtained) or
    resolve with a response of any status. *)
Inductive FetchOutcome (T : Type) : Type :=
| Rejects (e : JsError)
| Resolves (r : Response T).
Arguments Rejects {T} e.
Arguments Resolves {T} r.

(** The body of a successful connect call, read as [any]. *)
Definition ConnectReply : Type := Json.

(** ** Operations: state, trace and exceptions *)

Inductive Event : Type :=
| Fetch (method url : string)
| SetVms (v : list VM)
| SetIsLoading (b : bool)
| SetError (e : option string)
| ConsoleError (label msg : string)
| Alert (text : string).

(** A computation runs from a state to a completion, a state and the
    events it emitted, oldest first. *)
Definition M (A : Type) : Type :=
  ControllerState -> Completion A * ControllerState * list Event.

Definition ret {A : Type} (a : A) : M A :=
  fun st => (Normal a, st, []).

Definition throw {A : Type} (e : JsError) : M A :=
  fun st => (Throw e, st, []).

Definition bind {A B : Type} (m : M A) (k : A -> M B) : M B :=
  fun st =>
    match m st with
    | (Normal a, st1, ev1) =>
        match k a st1 with
        | (c, st2, ev2) => (c, st2, (ev1 ++ ev2)%list)
        end
    | (Throw e, st1, ev1) => (Throw e, st1, ev1)
    end.

Declare Scope js_scope.
Delimit Scope js_scope with js.
Notation "x <- m ;; k" := (bind m (fun x => k))
  (at level 61, m at next level, right associativity) : js_scope.
Notation "m ;; k" := (bind m (fun _ => k))
  (at level 61, right associativity) : js_scope.
Local Open Scope js_scope.

Definition lift {A : Type} (c : Completion A) : M A :=
  fun st => (c, st, []).

Definition emit (e : Event) : M unit :=
  fun st => (Normal tt, st, [e]).

(** [try { body } catch (err) { handler } finally { final }] *)
Definition try_catch_finally (body : M unit) (handler : JsError -> M unit)
    (final : M unit) : M unit :=
  fun st =>
    let '(c1, st1, ev1) := body st in
    let '(c2, st2, ev2) :=
      match c1 with
      | Normal a => (Normal a, st1, [])
      | Throw e => handler e st1
      end in
    let '(c3, st3, ev3) := final st2 in
    (match c3 with Normal _ => c2 | Throw e => Throw e end,
     st3, (ev1 ++ ev2 ++ ev3)%list).

Definition with_vms (v : list VM) (st : ControllerState) : ControllerState :=
  {| vms := v; searchTerm := searchTerm st; statusFilter := statusFilter st;
     zoneFilter := zoneFilter st; isLoading := isLoading st; error := error st |}.

Definition with_isLoading (b : bool) (st : ControllerState) : ControllerState :=
  {| vms := vms st; searchTerm := searchTerm st; statusFilter := statusFilter st;
     zoneFilter := zoneFilter st; isLoading := b; error := error st |}.

Definition with_error (e : option string) (st : ControllerState) : ControllerState :=
  {| vms := vms st; searchTerm := searchTerm st; statusFilter := statusFilter st;
     zoneFilter := zoneFilter st; isLoading := isLoading st; error := e |}.

Definition setVms (v : list VM) : M unit :=
  fun st => (Normal tt, with_vms v st, [SetVms v]).

Definition setIsLoading (b : bool) : M unit :=
  fun st => (Normal tt, with_isLoading b st, [SetIsLoading b]).

Definition setError (e : option string) : M unit :=
  fun st => (Normal tt, with_error e st, [SetError e]).

(** [console.error(label, err)] *)
Definition console_error (label : string) (err : JsError) : M unit :=
  emit (ConsoleError label (message err)).

Definition alert (text : string) : M unit :=
  emit (Alert text).

(** [await fetch(url, {method})]: the request goes out, the network
    answers [net]. *)
Definition fetch {T : Type} (method url : string) (net : FetchOutcome T)
  : M (Response T) :=
  emit (Fetch method url) ;;
  match net with
  | Rejects e => throw e
  | Resolves r => ret r
  end.

(** [await response.json()] *)
Definition await_json {T : Type} (j : JsonOutcome T) : M T :=
  match j with
  | JsonThrows e => throw e
  | JsonValue v => ret v
  end.

(** [if (!response.ok) { failed } ok_path]: [failed] always throws, so
    what follows the [if] runs on an ok response only. *)
Definition if_not_ok {T A : Type} (response : Response T)
    (failed : JsonOutcome Json -> M A) (ok_path : JsonOutcome T -> M A) : M A :=
  (if ok_status (http_status response) as b
      return JsonOutcome (Payload T b) -> M A
   then ok_path else failed) (json response).

(** [const errorData = await response.json();
     throw new Error(errorData.detail || fallback);] *)
Definition throw_detail {A : Type} (j : JsonOutcome Json) (fallback : string)
  : M A :=
  errorData <- await_json j ;;
  detail <- lift (JsValue.get errorData "detail") ;;
  err <- lift (JsValue.new_Error (JsValue.or_else detail fallback)) ;;
  throw err.

Definition API_BASE_URL : string := "http://localhost:8000/api".

Definition vms_url : string := API_BASE_URL ++ "/vms".

(** The two generic messages of [fetchVms]: the one thrown when the error
    body has no usable [detail], the one stored when the caught error has
    no message. *)
Definition fetch_fallback : string := "Error al obtener las VMs del backend.".
Definition network_fallback : string := "Error de red o del servidor al obtener VMs.".

Definition fetchVms (net : FetchOutcome (list VM)) : M unit :=
  setIsLoading true ;;
  setError None ;;
  try_catch_finally
    (response <- fetch "GET" vms_url net ;;
     if_not_ok response
       (fun j => throw_detail j fetch_fallback)
       (fun j => data <- await_json j ;; setVms data))
    (fun err =>
       console_error "Error al obtener VMs:" err ;;
       setError (Some (JsValue.or_string (message err) network_fallback)) ;;
       setVms [])
    (setIsLoading false).

Definition toggle_url (vmName zone : string) (currentStatus : VMStatus) : string :=
  API_BASE_URL ++ "/vms/" ++ vmName ++ "/toggle_power?zone=" ++ zone
  ++ "&current_status=" ++ VMStatus_string currentStatus.

Definition toggle_fallback (vmName : string) : string :=
  "Error al cambiar el estado de " ++ vmName ++ ".".

(** The acknowledgement shown to the caller; unit 243 is its o with
    acute accent. *)
Definition toggle_done (vmName : string) : string :=
  "Operaci" ++ String "243" "n de cambio de estado para " ++ vmName
  ++ " completada.".

(** [post] answers the POST, [refresh] the GET of the [fetchVms] call
    that follows a successful one. *)
Definition handleTogglePower {T : Type} (vmName zone : string)
    (currentStatus : VMStatus)
    (post : FetchOutcome T) (refresh : FetchOutcome (list VM)) : M unit :=
  setIsLoading true ;;
  setError None ;;
  try_catch_finally
    (response <- fetch "POST" (toggle_url vmName zone currentStatus) post ;;
     if_not_ok response
       (fun j => throw_detail j (toggle_fallback vmName))
       (fun _ =>
          fetchVms refresh ;;
          alert (toggle_done vmName)))
    (fun err =>
       console_error "Error al cambiar el estado:" err ;;
       setError (Some (JsValue.or_string (message err) (toggle_fallback vmName))))
    (setIsLoading false).

Definition connect_url (vmName zone : string) (ipExternal : option string) : string :=
  API_BASE_URL ++ "/vms/" ++ vmName ++ "/connect?zone=" ++ zone
  ++ match ipExternal with
     | Some ip => if Js.truthy_string ip then "&ip_external=" ++ ip else ""
     | None => ""
     end.

Definition connect_fallback (vmName : string) : string :=
  "Error al intentar conectar a " ++ vmName ++ ".".

(** The template literal of the alert,
    [`${data.mensaje}\nComando: ${data.comando_ssh}`]: each property is
    read and converted to a string in turn, the first exception ending
    the evaluation. *)
Definition connect_message (data : Json) : Completion string :=
  match JsValue.get data "mensaje" with
  | Throw e => Throw e
  | Normal mensaje =>
      match JsValue.interpolate mensaje with
      | Throw e => Throw e
      | Normal m =>
          match JsValue.get data "comando_ssh" with
          | Throw e => Throw e
          | Normal comando_ssh =>
              match JsValue.interpolate comando_ssh with
              | Throw e => Throw e
              | Normal c => Normal (m ++ String "010" "Comando: " ++ c)
              end
          end
      end
  end.

Definition handleConnect (vmName zone : string) (ipExternal : option string)
    (post : FetchOutcome ConnectReply) : M unit :=
  setIsLoading true ;;
  setError None ;;
  try_catch_finally
    (response <- fetch "POST" (connect_url vmName zone ipExternal) post ;;
     if_not_ok response
       (fun j => throw_detail j (connect_fallback vmName))
       (fun j =>
          data <- await_json j ;;
          text <- lift (connect_message data) ;;
          alert text))
    (fun err =>
       console_error "Error al conectar:" err ;;
       setError (Some (JsValue.or_string (message err) (connect_fallback vmName))))
    (setIsLoading false).

(** Running an operation: the state it leaves and the events it emitted. *)
Definition final_state {A : Type} (m : M A) (st : ControllerState) : ControllerState :=
  snd (fst (m st)).

Definition events {A : Type} (m : M A) (st : ControllerState) : list Event :=
  snd (m st).

Definition completion {A : Type} (m : M A) (st : ControllerState) : Completion A :=
  fst (fst (m st)).

(** ** The vocabulary of the specification *)

Module Spec.

(** The capital letters of Latin-1 and the small letters that have a
    capital there. *)
Definition is_capital (c : ascii) : bool :=
  let n := N_of_ascii c in
  ((65 <=? n) && (n <=? 90) || (192 <=? n) && (n <=? 214)
   || (216 <=? n) && (n <=? 222))%N.

Definition is_small (c : ascii) : bool :=
  let n := N_of_ascii c in
  ((97 <=? n) && (n <=? 122) || (224 <=? n) && (n <=? 246)
   || (248 <=? n) && (n <=? 254))%N.

(** The letter of the other case, for a letter; the unit itself
    otherwise. *)
Definition other_case (c : ascii) : ascii :=
  if is_capital c then ascii_of_N (N_of_ascii c + 32)
  else if is_small c then ascii_of_N (N_of_ascii c - 32)
  else c.

(** Two code units that differ at most in letter case. *)
Definition same_letter (a b : ascii) : Prop :=
  a = b \/ a = other_case b.

(** Two strings that differ at most in letter case. *)
Inductive eq_ignoring_case : string -> string -> Prop :=
| eic_empty : eq_ignoring_case "" ""
| eic_unit a b s t :
    same_letter a b -> eq_ignoring_case s t ->
    eq_ignoring_case (String a s) (String b t).





(** Ascending lexicographic order on strings, strict. *)
Definition lex_lt : string -> string -> Prop := OrderedTypeEx.String_as_OT.lt.

(** [l1] is [l2] with some elements left out, the others in place. *)
Inductive Subsequence {A : Type} : list A -> list A -> Prop :=
| sub_nil : Subsequence [] []
| sub_skip x l1 l2 : Subsequence l1 l2 -> Subsequence l1 (x :: l2)
| sub_keep x l1 l2 : Subsequence l1 l2 -> Subsequence (x :: l1) (x :: l2).

(** An occurrence of [a] comes before an occurrence of [b] in [l]. *)
Definition Before {A : Type} (a b : A) (l : list A) : Prop :=
  exists l1 l2 l3 : list A, l = (l1 ++ a :: l2 ++ b :: l3)%list.

End Spec.

Definition VMStatus_eq_dec (a b : VMStatus) : {a = b} + {a <> b}.
Proof. decide equality. Defined.

Definition VM_eq_dec (a b : VM) : {a = b} + {a <> b}.
Proof.
  decide equality;
    try apply string_dec; try apply VMStatus_eq_dec.
  decide equality; apply string_dec.
Defined.

(** The spec's example snapshot (section 8). *)
Definition example_vms : list VM :=
  [ {| id := "1"; name := "web-1"; zoneRegion := "us-1"; ipExternal := None;
       ipInternal := "10.0.0.1"; machineType := "e2-small"; status := Running |};
    {| id := "2"; name := "web-2"; zoneRegion := "us-2"; ipExternal := None;
       ipInternal := "10.0.0.2"; machineType := "e2-small"; status := Stopped |} ].

(** ** The search beyond Latin-1 *)

(** The name test of [filteredVms] on strings of UTF-16 code units, for
    names and search terms that [string] cannot hold.  [toLowerCase] is
    modelled on the Latin-1 units and the Greek letters U+0391-U+03A9 and
    U+03B1-U+03C9, where it is the Unicode default lower-casing: each
    capital goes to its small letter, but a capital sigma goes to the
    final small sigma when a cased letter comes before it (case-ignorable
    units apart) and none comes after.  A string with any other unit is
    outside the model ([None]). *)
Module Wide.

Definition wstring : Type := list N.


Definition in_range (lo hi c : N) : bool := ((lo <=? c) && (c <=? hi))%N.

Definition greek_capital (c : N) : bool :=
  in_range 913 937 c && negb (c =? 930)%N.

Definition greek_small (c : N) : bool := in_range 945 969 c.

Definition modelled (c : N) : bool :=
  (c <? 256)%N || greek_capital c || greek_small c.

(** The Unicode properties Cased and Case_Ignorable on the modelled
    units. *)
Definition Cased (c : N) : bool :=
  in_range 65 90 c || in_range 97 122 c
  || (c =? 170)%N || (c =? 181)%N || (c =? 186)%N
  || in_range 192 214 c || in_range 216 246 c || in_range 248 255 c
  || greek_capital c || greek_small c.

Definition Case_Ignorable (c : N) : bool :=
  existsb (N.eqb c) [39; 46; 58; 94; 96; 168; 173; 175; 180; 183; 184]%N.

Definition CAPITAL_SIGMA : N := 931.
Definition SMALL_SIGMA : N := 963.
Definition FINAL_SIGMA : N := 962.

(** The lower-case form of a unit, its context apart. *)
Definition lower_unit (c : N) : N :=
  if in_range 65 90 c
     || (in_range 192 222 c && negb (c =? 215)%N)
     || greek_capital c
  then (c + 32)%N else c.

(** Some cased letter follows, case-ignorable units apart. *)
Fixpoint followed_by_cased (s : wstring) : bool :=
  match s with
  | [] => false
  | c :: rest => if Case_Ignorable c then followed_by_cased rest else Cased c
  end.

(** [after_cased]: a cased letter comes before, case-ignorable units
    apart. *)
Fixpoint lower_from (after_cased : bool) (s : wstring) : wstring :=
  match s with
  | [] => []
  | c :: rest =>
      (if (c =? CAPITAL_SIGMA)%N
       then if after_cased && negb (followed_by_cased rest)
            then FINAL_SIGMA else SMALL_SIGMA
       else lower_unit c)
      :: lower_from
           (if Cased c then true
            else if Case_Ignorable c then after_cased else false) rest
  end.

(** [s.toLowerCase()] *)
Definition toLowerCase (s : wstring) : option wstring :=
  if forallb modelled s then Some (lower_from false s) else None.

Fixpoint prefix (t s : wstring) : bool :=
  match t, s with
  | [], _ => true
  | _ :: _, [] => false
  | a :: t', b :: s' => (a =? b)%N && prefix t' s'
  end.

(** [s.includes(t)] *)
Fixpoint includes (s t : wstring) : bool :=
  prefix t s
  || match s with
     | [] => false
     | _ :: s' => includes s' t
     end.

(** A VM whose name is a string of UTF-16 code units. *)
Record VM : Type := mkVM {
  id : string;
  name : wstring;
  zoneRegion : string;
  ipExternal : option string;
  ipInternal : string;
  machineType : string;
  status : VMStatus
}.

Definition matches_search (searchTerm : wstring) (vm : VM) : option bool :=
  match toLowerCase (name vm), toLowerCase searchTerm with
  | Some lowered_name, Some lowered_term =>
      Some (includes lowered_name lowered_term)
  | _, _ => None
  end.

Definition matches_status (statusFilter : string) (vm : VM) : bool :=
  (statusFilter =? "Todos") || (VMStatus_string (status vm) =? statusFilter).

Definition matches_zone (zoneFilter : string) (vm : VM) : bool :=
  (zoneFilter =? "Todas") || (zoneRegion vm =? zoneFilter).

(** The first [.filter] call. *)
Fixpoint filter_search (searchTerm : wstring) (vms : list VM)
  : option (list VM) :=
  match vms with
  | [] => Some []
  | vm :: rest =>
      match matches_search searchTerm vm, filter_search searchTerm rest with
      | Some keep, Some kept => Some (if keep then vm :: kept else kept)
      | _, _ => None
      end
  end.

(** The three chained [.filter] calls. *)
Definition filteredVms (vms : list VM) (searchTerm : wstring)
    (statusFilter zoneFilter : string) : option (list VM) :=
  match filter_search searchTerm vms with
  | Some found =>
      Some (filter (matches_zone zoneFilter)
              (filter (matches_status statusFilter) found))
  | None => None
  end.

End Wide.



Definition asa : Wide.VM :=
  {| Wide.id := "10"; Wide.name := [945; 963; 945]%N;
     Wide.zoneRegion := "eu-1"; Wide.ipExternal := None;
     Wide.ipInternal := "10.0.2.2"; Wide.machineType := "e2-small";
     Wide.status := Running |}.
Definition as_ : Wide.VM :=
  {| Wide.id := "11"; Wide.name := [945; 963]%N;
     Wide.zoneRegion := "eu-1"; Wide.ipExternal := None;
     Wide.ipInternal := "10.0.2.3"; Wide.machineType := "e2-small";
     Wide.status := Running |}.

(** ** Outcomes of a request, as the operations tell them apart *)

(** The ways a request fails. *)
Inductive Failure : Type :=
| NetworkFailure (e : JsError)   (* [fetch] rejected: no response *)
| BadBody (e : JsError)          (* non-2xx, and [response.json()] threw [e] *)
| ErrorBody (v : Json).          (* non-2xx, and the body parsed to [v] *)

Inductive Outcome (T : Type) : Type :=
| Failed (f : Failure)
| Succeeded (body : JsonOutcome T).   (* 2xx, with what [json()] will do *)
Arguments Failed {T} f.
Arguments Succeeded {T} body.

Definition classify {T : Type} (net : FetchOutcome T) : Outcome T :=
  match net with
  | Rejects e => Failed (NetworkFailure e)
  | Resolves r =>
      (if ok_status (http_status r) as b
          return JsonOutcome (Payload T b) -> Outcome T
       then fun j => Succeeded j
       else fun j =>
              match j with
              | JsonThrows e => Failed (BadBody e)
              | JsonValue v => Failed (ErrorBody v)
              end) (json r)
  end.

(** The server-supplied detail message of a failure, when there is one:
    the body parsed to an object whose [detail] is a non-empty string. *)
Definition server_detail (f : Failure) : option string :=
  match f with
  | ErrorBody (JObject fields) =>
      match JsValue.lookup "detail" fields with
      | Some (JString d) => if Js.truthy_string d then Some d else None
      | _ => None
      end
  | _ => None
  end.

(** The exception a failure raises inside the [try] block of an operation
    whose [throw new Error(errorData.detail || fallback)] has that
    [fallback]: the one [fetch] or [json()] threw, the [TypeError] of
    reading [detail] on [null] or of converting [detail] to a string, or
    the new [Error]. *)
Definition raised (f : Failure) (fallback : string) : JsError :=
  match f with
  | NetworkFailure e => e
  | BadBody e => e
  | ErrorBody v =>
      match JsValue.get v "detail" with
      | Throw e => e
      | Normal detail =>
          match JsValue.new_Error (JsValue.or_else detail fallback) with
          | Throw e => e
          | Normal err => err
          end
      end
  end.

Definition is_Fetch (e : Event) : bool :=
  match e with Fetch _ _ => true | _ => false end.

Definition is_SetIsLoading (e : Event) : bool :=
  match e with SetIsLoading _ => true | _ => false end.

Definition is_SetVms (e : Event) : bool :=
  match e with SetVms _ => true | _ => false end.

Definition is_Alert (e : Event) : bool :=
  match e with Alert _ => true | _ => false end.

(** What the [catch] block of an operation stores for a failure:
    [err.message || catch_fallback]. *)
Definition stored_message (f : Failure) (fallback catch_fallback : string) : string :=
  JsValue.or_string (message (raised f fallback)) catch_fallback.

(** The state an operation works on once it has set [isLoading] and
    cleared [error]. *)
Definition started (st : ControllerState) : ControllerState :=
  with_error None (with_isLoading true st).

(** Events that neither issue a request, nor touch [isLoading], nor
    signal the caller. *)
Definition quiet (e : Event) : Prop :=
  is_Fetch e = false /\ is_SetIsLoading e = false /\ is_Alert e = false.

(** The claims on error messages, as the specification words them. *)
Module Stated.

(** "error is the server detail when the body parses as {detail},
    otherwise a generic message", [generic] telling the generic
    messages of the operation. *)
Definition error_is_detail_or_generic (f : Failure) (generic : string -> Prop)
    (err : option string) : Prop :=
  match server_detail f with
  | Some d => err = Some d
  | None => exists m, err = Some m /\ generic m
  end.

Definition fetch_generic (m : string) : Prop :=
  m = fetch_fallback \/ m = network_fallback.


(** C2 as stated, at one call. *)
Definition fetchVms_failure (net : FetchOutcome (list VM)) (st : ControllerState)
  : Prop :=
  forall f, classify net = Failed f ->
    vms (final_state (fetchVms net) st) = []
    /\ error_is_detail_or_generic f fetch_generic
         (error (final_state (fetchVms net) st)).

(** C4 as stated, at one call of each of the three operations. *)
Definition unparseable_is_generic (vmName zone : string)
    (currentStatus : VMStatus) (ipExternal : option string)
    (get : FetchOutcome (list VM)) (toggle : FetchOutcome Json)
    (connect : FetchOutcome ConnectReply) (st : ControllerState) : Prop :=
  forall e1 e2 e3 : JsError,
    classify get = Failed (BadBody e1) ->
    classify toggle = Failed (BadBody e2) ->
    classify connect = Failed (BadBody e3) ->
    (exists m, error (final_state (fetchVms get) st) = Some m /\ fetch_generic m)
    /\ error (final_state
                (handleTogglePower vmName zone currentStatus toggle get) st)
       = Some (toggle_fallback vmName)
    /\ error (final_state (handleConnect vmName zone ipExternal connect) st)
       = Some (connect_fallback vmName).

(** C6 as stated, at one call. *)
Definition toggle_failure {T : Type} (vmName zone : string)
    (currentStatus : VMStatus) (post : FetchOutcome T)
    (refresh : FetchOutcome (list VM)) (st : ControllerState) : Prop :=
  forall f, classify post = Failed f ->
    let run := handleTogglePower vmName zone currentStatus post refresh in
    error_is_detail_or_generic f (fun m => m = toggle_fallback vmName)
      (error (final_state run st))
    /\ ~ In (Fetch "GET" vms_url) (events run st)
    /\ vms (final_state run st) = vms st.

End Stated.

(** The 256 code units. *)
Definition all_units : list ascii := map ascii_of_nat (seq 0 256).

Definition same_letterb (a b : ascii) : bool :=
  Ascii.eqb a b || Ascii.eqb a (Spec.other_case b).

(** The single pass that tests the three predicates at once. *)
Definition passes (searchTerm statusFilter zoneFilter : string) (vm : VM) : bool :=
  matches_search searchTerm vm
  && matches_status statusFilter vm
  && matches_zone zoneFilter vm.

(** Non-strict code-unit order, as [SortCompare] decides it. *)
Definition lex_le (x y : string) : Prop := x = y \/ Spec.lex_lt x y.

(** ** The rest of the component: first load, callbacks, rendering *)

(** [useEffect(() => { fetchVms(); }, [])]: the state after the first
    load, which starts from the state [useState] gives. *)
Definition mounted (net : FetchOutcome (list VM)) : ControllerState :=
  final_state (fetchVms net) initial_state.

(** [handleRefresh]: [fetchVms] again; the filters are not reset. *)
Definition handleRefresh (net : FetchOutcome (list VM)) : M unit :=
  fetchVms net.

(** [vms.find(v => v.id === id)] *)
Definition find_by_id (vms : list VM) (id' : string) : option VM :=
  find (fun v => id v =? id') vms.

(** The [onTogglePower] callback of a card: [id] and [status] are what
    the card passes. *)
Definition onTogglePower {T : Type} (id : string) (status : VMStatus)
    (post : FetchOutcome T) (refresh : FetchOutcome (list VM)) : M unit :=
  fun st =>
    match find_by_id (vms st) id with
    | Some targetVm =>
        handleTogglePower (name targetVm) (zoneRegion targetVm) status
          post refresh st
    | None => ret tt st
    end.

(** The [onConnect] callback of a card. *)
Definition onConnect (id : string) (post : FetchOutcome ConnectReply) : M unit :=
  fun st =>
    match find_by_id (vms st) id with
    | Some targetVm =>
        handleConnect (name targetVm) (zoneRegion targetVm)
          (ipExternal targetVm) post st
    | None => ret tt st
    end.

(** [error] in a boolean position. *)
Definition truthy_error (e : option string) : bool :=
  match e with
  | Some m => Js.truthy_string m
  | None => false
  end.

(** What [App] returns, as far as it depends on the state. *)
Record View : Type := mkView {
  zones : list string;           (* [zones={allZones}] of the filter bar *)
  loadingOverlay : bool;         (* [isLoading && <div>Cargando VMs...</div>] *)
  errorBanner : option string;   (* [error && <div>{error}</div>] *)
  cards : list VM;               (* one [VMCard] per element of [filteredVms] *)
  noResults : bool               (* the paragraph "No se encontraron VMs ..." *)
}.

Definition render (st : ControllerState) : View :=
  let filtered :=
    filteredVms (vms st) (searchTerm st) (statusFilter st) (zoneFilter st) in
  {| zones := allZones (vms st);
     loadingOverlay := isLoading st;
     errorBanner := if truthy_error (error st) then error st else None;
     cards := filtered;
     noResults :=
       if (0 <? List.length filtered)%nat then false
       else negb (isLoading st) && negb (truthy_error (error st)) |}.

(** ** Concrete inputs *)

(** A state with a loaded snapshot, a stale error and the loading flag
    up: what an operation may start from. *)
Definition loaded_state : ControllerState :=
  {| vms := example_vms; searchTerm := "web"; statusFilter := "Todos";
     zoneFilter := "Todas"; isLoading := true; error := Some "stale" |}.

(** A 500 answer whose body is [{detail: "boom"}]. *)
Definition boom {T : Type} : FetchOutcome T :=
  Resolves (mkResponse 500 (JsonValue (JObject [("detail", JString "boom")]))).

(** A 502 answer whose body is an HTML page: [response.json()] throws the
    parser's [SyntaxError]. *)
Definition html_error : JsError :=
  {| message := "Unexpected token < in JSON at position 0" |}.
Definition bad_gateway {T : Type} : FetchOutcome T :=
  Resolves (mkResponse 502 (JsonThrows html_error)).

(** A 200 answer with body [data]. *)
Definition ok_with {T : Type} (data : T) : FetchOutcome T :=
  Resolves (mkResponse 200 (JsonValue data)).

(** A JSON object with an own [toString] property, and a 500 answer whose
    [detail] is that object. *)
Definition opaque_object : Json := JObject [("toString", JString "x")].
Definition opaque_detail {T : Type} : FetchOutcome T :=
  Resolves (mkResponse 500 (JsonValue (JObject [("detail", opaque_object)]))).

(** A 200 answer whose body is not JSON. *)
Definition ok_unparseable {T : Type} : FetchOutcome T :=
  Resolves (mkResponse 200 (JsonThrows html_error)).

(** Two VMs that share an id, and a snapshot holding both. *)
Definition db_a : VM :=
  {| id := "7"; name := "db-a"; zoneRegion := "eu-1"; ipExternal := None;
     ipInternal := "10.0.1.1"; machineType := "e2-small"; status := Running |}.
Definition db_b : VM :=
  {| id := "7"; name := "db-b"; zoneRegion := "eu-2";
     ipExternal := Some "34.9.9.9";
     ipInternal := "10.0.1.2"; machineType := "e2-small"; status := Stopped |}.
Definition clashing_vms : list VM := [db_a; db_b].

(** A state with nothing loaded and [term] typed in the search box. *)
Definition searching (term : string) : ControllerState :=
  {| vms := []; searchTerm := term; statusFilter := "Todos";
     zoneFilter := "Todas"; isLoading := false; error := None |}.

(** The second VM of the spec's example. *)
Definition web_2 : VM :=
  {| id := "2"; name := "web-2"; zoneRegion := "us-2"; ipExternal := None;
     ipInternal := "10.0.0.2"; machineType := "e2-small"; status := Stopped |}.

(** ** Proof steps *)

(** Unfolds an operation down to states, completions and event lists. *)
Ltac run :=
  cbv [final_state events completion fetchVms handleTogglePower handleConnect
       try_catch_finally bind ret throw lift emit fetch await_json if_not_ok
       throw_detail setVms setIsLoading setError console_error alert classify
       ok http_status json app fst snd started stored_message
       with_vms with_isLoading with_error] in *;
  cbn [vms error isLoading searchTerm statusFilter zoneFilter] in *.

(** The same, leaving a nested [fetchVms] call folded. *)
Ltac run_outer :=
  cbv [final_state events completion handleTogglePower
       try_catch_finally bind ret throw lift emit fetch await_json if_not_ok
       throw_detail setIsLoading setError console_error alert classify
       ok http_status json fst snd] in *.

(** Splits a network answer into: rejected, 2xx with its body, non-2xx
    with an unparseable body, non-2xx with a parsed body. *)
Ltac answer net :=
  let e := fresh "e" in
  let s := fresh "s" in
  let j := fresh "j" in
  let v := fresh "v" in
  destruct net as [e | [s j]]; run;
  [ | generalize dependent j; destruct (ok_status s); intros j; intros;
      [ | destruct j as [e | v] ] ].

(** * Properties *)

(** ** Strings *)

Section StringFacts.

Lemma prefix_iff (t s : string) :
  String.prefix t s = true <-> exists post, s = t ++ post.
Proof.
  revert s; induction t as [|a t IH]; intros s.
  - destruct s; simpl; split; eauto.
  - destruct s as [|b s]; simpl.
    + split; [discriminate | intros [post H]; discriminate].
    + destruct (ascii_dec a b) as [->|Hab].
      * rewrite IH. split; intros [post H]; exists post.
        -- now subst.
        -- now inversion H.
      * split; [discriminate | intros [post H]; inversion H; congruence].
Qed.

(** [includes] finds exactly the contiguous occurrences. *)
Lemma includes_iff (s t : string) :
  Js.includes s t = true <-> exists pre post, s = pre ++ t ++ post.
Proof.
  induction s as [|c s IH].
  - cbn [Js.includes]. rewrite orb_false_r, prefix_iff. split.
    + intros [post H]. now exists "", post.
    + intros [pre [post H]]. destruct pre; simpl in H; [eauto | discriminate].
  - cbn [Js.includes].
    rewrite orb_true_iff, prefix_iff, IH. split.
    + intros [[post H] | [pre [post H]]].
      * now exists "", post.
      * exists (String c pre), post. simpl. now rewrite H.
    + intros [pre [post H]]. destruct pre as [|x pre]; simpl in H.
      * left. eauto.
      * right. inversion H; subst. eauto.
Qed.

Lemma toLowerCase_app (a b : string) :
  Js.toLowerCase (a ++ b) = Js.toLowerCase a ++ Js.toLowerCase b.
Proof. induction a as [|c a IH]; simpl; congruence. Qed.


End StringFacts.

(** ** Letter case *)

Section LetterCase.

Lemma all_units_complete (c : ascii) : In c all_units.
Proof.
  unfold all_units. rewrite <- (ascii_nat_embedding c).
  apply in_map, in_seq. pose proof (nat_ascii_bounded c). lia.
Qed.

(** Checked on the 256 x 256 pairs of units. *)
Lemma lower_unit_table :
  forallb (fun a =>
    forallb (fun b =>
      Bool.eqb (Ascii.eqb (Js.lower_unit a) (Js.lower_unit b)) (same_letterb a b))
      all_units) all_units = true.
Proof. vm_compute. reflexivity. Qed.

Lemma lower_unit_same_letter (a b : ascii) :
  Js.lower_unit a = Js.lower_unit b <-> Spec.same_letter a b.
Proof.
  pose proof lower_unit_table as T.
  rewrite forallb_forall in T. specialize (T a (all_units_complete a)).
  rewrite forallb_forall in T. specialize (T b (all_units_complete b)).
  apply Bool.eqb_prop in T. unfold same_letterb, Spec.same_letter in *.
  rewrite <- Ascii.eqb_eq, T, orb_true_iff, !Ascii.eqb_eq. tauto.
Qed.

Lemma eq_ignoring_case_iff (s t : string) :
  Spec.eq_ignoring_case s t <-> Js.toLowerCase s = Js.toLowerCase t.
Proof.
  split.
  - induction 1 as [|a b s t Hab Hst IH]; simpl; [reflexivity|].
    apply lower_unit_same_letter in Hab. congruence.
  - revert t; induction s as [|a s IH]; intros [|b t] H; simpl in H;
      try discriminate.
    + constructor.
    + inversion H. constructor; [apply lower_unit_same_letter|]; auto.
Qed.


End LetterCase.

(** ** The filtered view *)

Section Filtering.

Variables searchTerm statusFilter zoneFilter : string.




Lemma filter_twice {A : Type} (f g : A -> bool) (l : list A) :
  filter g (filter f l) = filter (fun x => f x && g x) l.
Proof.
  induction l as [|x l IH]; simpl; [reflexivity|].
  destruct (f x); simpl; [destruct (g x)|]; congruence.
Qed.

Lemma filteredVms_one_pass (l : list VM) :
  filteredVms l searchTerm statusFilter zoneFilter
  = filter (passes searchTerm statusFilter zoneFilter) l.
Proof.
  unfold filteredVms. rewrite !filter_twice. apply filter_ext.
  intros vm. unfold passes. now rewrite andb_assoc.
Qed.

Lemma filter_Subsequence {A : Type} (f : A -> bool) (l : list A) :
  Spec.Subsequence (filter f l) l.
Proof.
  induction l as [|x l IH]; simpl.
  - constructor.
  - destruct (f x); now constructor.
Qed.

End Filtering.

Section SubsequenceFacts.

Context {A : Type}.

Lemma Subsequence_In (l1 l2 : list A) (x : A) :
  Spec.Subsequence l1 l2 -> In x l1 -> In x l2.
Proof. induction 1; simpl; intuition. Qed.

Lemma Subsequence_count (dec : forall a b : A, {a = b} + {a <> b})
    (l1 l2 : list A) (x : A) :
  Spec.Subsequence l1 l2 -> count_occ dec l1 x <= count_occ dec l2 x.
Proof.
  induction 1 as [|y l1 l2 H IH|y l1 l2 H IH]; simpl; [lia| |];
    destruct (dec y x); lia.
Qed.

(** The occurrences of [l1 ++ l1'] found in [l2] split [l2] in two. *)
Lemma Subsequence_app_inv (l1 l1' l2 : list A) :
  Spec.Subsequence (l1 ++ l1')%list l2 ->
  exists m m', l2 = (m ++ m')%list
               /\ Spec.Subsequence l1 m /\ Spec.Subsequence l1' m'.
Proof.
  revert l1; induction l2 as [|y l2 IH]; intros l1 H.
  - inversion H as [E| |]. apply eq_sym, app_eq_nil in E as [-> ->].
    exists [], []. repeat split; constructor.
  - inversion H as [|x k1 k2 H' E1 E2|x k1 k2 H' E1 E2]; subst.
    + destruct (IH _ H') as [m [m' [-> [H1 H2]]]].
      exists (y :: m), m'. split; [reflexivity|]. split; [|assumption].
      now apply Spec.sub_skip.
    + destruct l1 as [|z l1]; simpl in E1.
      * subst l1'. eexists [], (_ :: l2).
        split; [reflexivity|]. split; [constructor|assumption].
      * inversion E1; subst.
        destruct (IH _ H') as [m [m' [-> [H1 H2]]]].
        eexists (_ :: m), m'. split; [reflexivity|]. split; [|assumption].
        now apply Spec.sub_keep.
Qed.

Lemma Subsequence_cons_inv (x : A) (l1 l2 : list A) :
  Spec.Subsequence (x :: l1) l2 ->
  exists m m', l2 = (m ++ x :: m')%list /\ Spec.Subsequence l1 m'.
Proof.
  induction l2 as [|y l2 IH]; intros H;
    inversion H as [|z k1 k2 H' E1 E2|z k1 k2 H' E1 E2].
  - destruct (IH H') as [m [m' [-> H'']]]. now exists (y :: m), m'.
  - now exists [], l2.
Qed.

Lemma Subsequence_Before (l1 l2 : list A) (a b : A) :
  Spec.Subsequence l1 l2 -> Spec.Before a b l1 -> Spec.Before a b l2.
Proof.
  intros H [k1 [k2 [k3 ->]]].
  apply Subsequence_app_inv in H as [m [m' [-> [_ H]]]].
  apply Subsequence_cons_inv in H as [n [n' [-> H]]].
  apply Subsequence_app_inv in H as [p [p' [-> [_ H]]]].
  apply Subsequence_cons_inv in H as [q [q' [-> _]]].
  exists (m ++ n)%list, (p ++ q)%list, q'.
  now rewrite <- !app_assoc.
Qed.

End SubsequenceFacts.

(** ** The zone view *)

Section Zones.

Import OrderedTypeEx.

Lemma SortCompare_Lt (x y : string) :
  Js.SortCompare x y = Lt -> Spec.lex_lt x y.
Proof. apply String_as_OT.cmp_lt. Qed.

Lemma SortCompare_Eq (x y : string) :
  Js.SortCompare x y = Eq -> x = y.
Proof. apply String_as_OT.cmp_eq. Qed.

Lemma SortCompare_Gt (x y : string) :
  Js.SortCompare x y = Gt -> Spec.lex_lt y x.
Proof.
  unfold Js.SortCompare. intros H. apply String_as_OT.cmp_lt.
  unfold String_as_OT.cmp. rewrite String_as_OT.cmp_antisym.
  unfold String_as_OT.cmp. now rewrite H.
Qed.

Lemma lex_lt_irrefl (x : string) : ~ Spec.lex_lt x x.
Proof. intros H. apply String_as_OT.lt_not_eq in H. now apply H. Qed.

Lemma lex_le_trans (x y z : string) : lex_le x y -> lex_le y z -> lex_le x z.
Proof.
  unfold lex_le, Spec.lex_lt. intros [-> | Hxy] [-> | Hyz]; auto.
  right. eapply String_as_OT.lt_trans; eassumption.
Qed.

(** *** [sort] *)

Lemma sort_insert_In (x y : string) (l : list string) :
  In y (Js.sort_insert x l) <-> y = x \/ In y l.
Proof.
  induction l as [|z l IH]; simpl.
  - intuition.
  - destruct (Js.SortCompare x z); simpl; rewrite ?IH; intuition.
Qed.

Lemma sort_In (y : string) (l : list string) :
  In y (Js.sort l) <-> In y l.
Proof.
  induction l as [|x l IH]; simpl; [tauto|].
  rewrite sort_insert_In, IH. intuition.
Qed.

Lemma sort_insert_sorted (x : string) (l : list string) :
  StronglySorted lex_le l -> StronglySorted lex_le (Js.sort_insert x l).
Proof.
  induction 1 as [|z l Hl IH Hz]; simpl.
  - repeat constructor.
  - assert (Hup : lex_le x z -> StronglySorted lex_le (x :: z :: l)).
    { intros Hxz. constructor; [now constructor|]. constructor; [assumption|].
      eapply Forall_impl; [|exact Hz]. intros w Hw.
      eapply lex_le_trans; eassumption. }
    destruct (Js.SortCompare x z) eqn:E.
    + apply Hup. left. now apply SortCompare_Eq.
    + apply Hup. right. now apply SortCompare_Lt.
    + constructor; [assumption|]. apply Forall_forall. intros w Hw.
      apply sort_insert_In in Hw as [-> | Hw].
      * right. now apply SortCompare_Gt.
      * rewrite Forall_forall in Hz. auto.
Qed.

Lemma sort_sorted (l : list string) : StronglySorted lex_le (Js.sort l).
Proof.
  induction l as [|x l IH]; simpl; [constructor|].
  now apply sort_insert_sorted.
Qed.

Lemma sort_insert_NoDup (x : string) (l : list string) :
  ~ In x l -> NoDup l -> NoDup (Js.sort_insert x l).
Proof.
  induction l as [|z l IH]; simpl; intros Hx Hl.
  - repeat constructor. auto.
  - destruct (Js.SortCompare x z); try (constructor; assumption).
    inversion Hl as [|? ? Hz Hl']; subst. constructor.
    + rewrite sort_insert_In. intuition.
    + apply IH; intuition.
Qed.

Lemma sort_NoDup (l : list string) : NoDup l -> NoDup (Js.sort l).
Proof.
  induction 1 as [|x l Hx Hl IH]; simpl; [constructor|].
  apply sort_insert_NoDup; [now rewrite sort_In | assumption].
Qed.

(** Without repetition, sorted is strictly sorted. *)
Lemma sorted_NoDup_strict (l : list string) :
  StronglySorted lex_le l -> NoDup l -> StronglySorted Spec.lex_lt l.
Proof.
  induction 1 as [|x l Hl IH Hx]; intros Hnd; [constructor|].
  inversion Hnd as [|? ? Hnotin Hnd']; subst. constructor; [auto|].
  rewrite Forall_forall in *. intros y Hy.
  destruct (Hx y Hy) as [-> | Hlt]; [contradiction | assumption].
Qed.

(** *** [new Set] *)

Lemma Set_has_In (elems : list string) (x : string) :
  Js.Set_has elems x = true <-> In x elems.
Proof.
  unfold Js.Set_has. rewrite existsb_exists. split.
  - intros [y [Hy E]]. apply String.eqb_eq in E. now subst.
  - intros H. exists x. split; [assumption | apply String.eqb_refl].
Qed.

Lemma Set_add_In (elems : list string) (x y : string) :
  In y (Js.Set_add elems x) <-> In y elems \/ y = x.
Proof.
  unfold Js.Set_add. destruct (Js.Set_has elems x) eqn:E.
  - apply Set_has_In in E. split; [auto | intros [H | ->]; assumption].
  - rewrite in_app_iff. simpl. intuition.
Qed.

Lemma Set_add_NoDup (elems : list string) (x : string) :
  NoDup elems -> NoDup (Js.Set_add elems x).
Proof.
  intros H. unfold Js.Set_add. destruct (Js.Set_has elems x) eqn:E; [assumption|].
  assert (Hx : ~ In x elems).
  { intros Hin. apply Set_has_In in Hin. congruence. }
  clear E. induction H as [|z l Hz Hl IH]; simpl.
  - repeat constructor. auto.
  - constructor.
    + rewrite in_app_iff. simpl in *. intuition.
    + apply IH. simpl in Hx. intuition.
Qed.

Lemma fold_Set_add_In (arr acc : list string) (y : string) :
  In y (fold_left Js.Set_add arr acc) <-> In y acc \/ In y arr.
Proof.
  revert acc; induction arr as [|x arr IH]; intros acc; simpl.
  - tauto.
  - rewrite IH, Set_add_In. intuition.
Qed.

Lemma fold_Set_add_NoDup (arr acc : list string) :
  NoDup acc -> NoDup (fold_left Js.Set_add arr acc).
Proof.
  revert acc; induction arr as [|x arr IH]; intros acc H; simpl.
  - assumption.
  - now apply IH, Set_add_NoDup.
Qed.

(** *** Uniqueness of the strictly sorted enumeration of a set *)

Lemma strict_sorted_unique (l1 l2 : list string) :
  StronglySorted Spec.lex_lt l1 -> StronglySorted Spec.lex_lt l2 ->
  (forall z, In z l1 <-> In z l2) -> l1 = l2.
Proof.
  intros H1; revert l2; induction H1 as [|x l1 Hl1 IH Hx];
    intros l2 H2 Hsame.
  - destruct l2 as [|y l2]; [reflexivity|].
    exfalso. apply (Hsame y). now left.
  - inversion H2 as [|y l2' Hl2 Hy]; subst.
    + exfalso. apply (Hsame x). now left.
    + rewrite Forall_forall in Hx, Hy.
      assert (x = y) as <-.
      { destruct (proj1 (Hsame x) (or_introl eq_refl)) as [E | Hin]; [auto|].
        destruct (proj2 (Hsame y) (or_introl eq_refl)) as [E | Hin']; [auto|].
        exfalso. apply (lex_lt_irrefl x).
        eapply String_as_OT.lt_trans; [apply Hx | apply Hy]; eassumption. }
      f_equal. apply IH; [assumption|]. intros z. split; intros Hz.
      * destruct (proj1 (Hsame z) (or_intror Hz)) as [E | Hin]; [|assumption].
        subst z. exfalso. apply (lex_lt_irrefl x). auto.
      * destruct (proj2 (Hsame z) (or_intror Hz)) as [E | Hin]; [|assumption].
        subst z. exfalso. apply (lex_lt_irrefl x). auto.
Qed.

End Zones.

(** ** The derived views: the claims *)

Lemma count_occ_filter_pass (f : VM -> bool) (l : list VM) (vm : VM) :
  f vm = true ->
  count_occ VM_eq_dec (filter f l) vm = count_occ VM_eq_dec l vm.
Proof.
  intros Hf. induction l as [|x l IH]; simpl; [reflexivity|].
  destruct (f x) eqn:E; simpl; destruct (VM_eq_dec x vm); subst; congruence.
Qed.

(** *** The Latin-1 model inside the wider one *)

Section WideFacts.













End WideFacts.


(** Beyond Latin-1 a longer search term can widen the result, and two
    terms that differ in letter case only can select different VMs. *)
Example search_beyond_Latin1 :
  Wide.filteredVms [asa] [913; 931]%N "Todos" "Todas" = Some []
  /\ Wide.filteredVms [asa] [913; 931; 913]%N "Todos" "Todas" = Some [asa]
  /\ Wide.filteredVms [as_] [945; 963]%N "Todos" "Todas" = Some [as_]
  /\ Wide.filteredVms [as_] [913; 931]%N "Todos" "Todas" = Some [].
Proof. repeat split. Qed.


(** The spec's example: filtering the two-VM snapshot by status Running
    keeps web-1 alone, and a search term matches across letter case. *)
Example filteredVms_example :
  map name (filteredVms example_vms "" "Running" "Todas") = ["web-1"]
  /\ map name (filteredVms example_vms "WEB" "Todos" "us-2") = ["web-2"]
  /\ map name (filteredVms example_vms "web" "Running" "us-2") = [].
Proof. repeat split. Qed.

(** Two elements that both pass a filter keep their order in the
    result. *)
Lemma filter_Before {A : Type} (f : A -> bool) (a b : A) (l : list A) :
  f a = true -> f b = true ->
  Spec.Before a b l -> Spec.Before a b (filter f l).
Proof.
  intros Ha Hb [l1 [l2 [l3 ->]]].
  exists (filter f l1), (filter f l2), (filter f l3).
  rewrite filter_app. cbn [filter]. rewrite Ha, filter_app. cbn [filter].
  now rewrite Hb.
Qed.

(** C10. For every snapshot and every filter combination, [filteredVms]
    is an order-preserving subsequence of [vms]: every element of it is
    an element of [vms], no VM occurs in it more often than in [vms], two
    VMs that occur in it one before the other occur in [vms] in that
    order, two VMs that both pass the filters and occur in [vms] one
    before the other occur in [filteredVms] in that same order, and a VM
    that passes the filters occurs as often as in [vms]. *)
Theorem filteredVms_subsequence
    (vms : list VM) (searchTerm statusFilter zoneFilter : string) :
  Spec.Subsequence (filteredVms vms searchTerm statusFilter zoneFilter) vms
  /\ (forall vm : VM,
        In vm (filteredVms vms searchTerm statusFilter zoneFilter) -> In vm vms)
  /\ (forall vm : VM,
        count_occ VM_eq_dec (filteredVms vms searchTerm statusFilter zoneFilter) vm
        <= count_occ VM_eq_dec vms vm)
  /\ (forall a b : VM,
        Spec.Before a b (filteredVms vms searchTerm statusFilter zoneFilter) ->
        Spec.Before a b vms)
  /\ (forall a b : VM,
        passes searchTerm statusFilter zoneFilter a = true ->
        passes searchTerm statusFilter zoneFilter b = true ->
        Spec.Before a b vms ->
        Spec.Before a b (filteredVms vms searchTerm statusFilter zoneFilter))
  /\ (forall vm : VM,
        passes searchTerm statusFilter zoneFilter vm = true ->
        count_occ VM_eq_dec (filteredVms vms searchTerm statusFilter zoneFilter) vm
        = count_occ VM_eq_dec vms vm).
Proof.
  assert (H : Spec.Subsequence
                (filteredVms vms searchTerm statusFilter zoneFilter) vms).
  { rewrite filteredVms_one_pass. apply filter_Subsequence. }
  split; [exact H|]. split; [|split; [|split; [|split]]].
  - intros vm. now apply Subsequence_In.
  - intros vm. now apply Subsequence_count.
  - intros a b. now apply Subsequence_Before.
  - intros a b Ha Hb Hab. rewrite filteredVms_one_pass.
    now apply filter_Before.
  - intros vm Hvm. rewrite filteredVms_one_pass.
    now apply count_occ_filter_pass.
Qed.

Lemma allZones_In (vms : list VM) (z : string) :
  In z (allZones vms) <-> exists vm, In vm vms /\ zoneRegion vm = z.
Proof.
  unfold allZones, Js.Array_from_new_Set.
  rewrite sort_In, fold_Set_add_In, in_map_iff. simpl. split.
  - intros [[] | [vm [E H]]]. now exists vm.
  - intros [vm [H E]]. right. now exists vm.
Qed.

Lemma allZones_strict (vms : list VM) :
  StronglySorted Spec.lex_lt (allZones vms).
Proof.
  unfold allZones. apply sorted_NoDup_strict; [apply sort_sorted|].
  apply sort_NoDup, fold_Set_add_NoDup. constructor.
Qed.

(** Whatever algorithm [sort] runs, the result is this one: the zones of
    a snapshot have one strictly ascending enumeration. *)
Lemma allZones_unique (vms : list VM) (l : list string) :
  StronglySorted Spec.lex_lt l ->
  (forall z, In z l <-> exists vm, In vm vms /\ zoneRegion vm = z) ->
  l = allZones vms.
Proof.
  intros Hs Hin. apply strict_sorted_unique; [assumption | apply allZones_strict|].
  intros z. now rewrite Hin, allZones_In.
Qed.

(** C5. For every snapshot, [allZones] is the set of the [zoneRegion]
    values occurring in it: a zone is listed if and only if some VM of
    the snapshot has it, each zone is listed once, and the list is in
    ascending lexicographic order; for the spec's VMs in zones us-1 and
    us-2 it is [us-1; us-2]. *)
Theorem allZones_distinct_sorted (vms : list VM) :
  (forall z : string,
     In z (allZones vms) <-> exists vm, In vm vms /\ zoneRegion vm = z)
  /\ NoDup (allZones vms)
  /\ StronglySorted Spec.lex_lt (allZones vms)
  /\ allZones example_vms = ["us-1"; "us-2"]
  /\ allZones (rev example_vms ++ example_vms)%list = ["us-1"; "us-2"].
Proof.
  split; [apply allZones_In|]. split; [|split; [apply allZones_strict|]].
  - unfold allZones. apply sort_NoDup, fold_Set_add_NoDup. constructor.
  - split; reflexivity.
Qed.

(** ** The operations *)

Section OperationFacts.

(** [classify] reads [response.ok]: a response is a success exactly when
    its status is 2xx, a failure otherwise, and a rejection is a failure. *)
Lemma classify_ok {T : Type} (r : Response T) :
  (ok r = true <-> exists body, classify (Resolves r) = Succeeded body)
  /\ (ok r = false <-> exists f, classify (Resolves r) = Failed f).
Proof.
  destruct r as [s j]. unfold ok, classify. cbn [http_status json].
  generalize dependent j. destruct (ok_status s); intros j.
  - split; split; try discriminate.
    + intros _. now exists j.
    + reflexivity.
    + intros [f Hf]. discriminate Hf.
  - split; split; try discriminate.
    + intros [body Hbody]. destruct j; discriminate Hbody.
    + intros _. destruct j; eexists; reflexivity.
    + reflexivity.
Qed.

Lemma stored_message_detail (f : Failure) (fallback catch_fallback d : string) :
  server_detail f = Some d -> stored_message f fallback catch_fallback = d.
Proof.
  unfold server_detail, stored_message, raised. intros H.
  destruct f as [e | e | v]; try discriminate.
  destruct v as [| | | |elems|fields]; try discriminate. simpl.
  destruct (JsValue.lookup "detail" fields) as [[| | |s| |]|]; try discriminate.
  destruct (Js.truthy_string s) eqn:E; [|discriminate].
  inversion H; subst. unfold JsValue.or_else, JsValue.new_Error. simpl.
  rewrite E. simpl. unfold JsValue.or_string. now rewrite E.
Qed.

Lemma stored_message_no_detail (v : Json) (detail : option Json)
    (fallback catch_fallback : string) :
  JsValue.get v "detail" = Normal detail ->
  JsValue.ToBoolean detail = false ->
  stored_message (ErrorBody v) fallback catch_fallback
  = JsValue.or_string fallback catch_fallback.
Proof.
  unfold stored_message, raised. intros -> H.
  unfold JsValue.or_else. rewrite H. now destruct detail.
Qed.

(** A [null] body: reading [detail] throws. *)
Lemma stored_message_null (fallback catch_fallback : string) :
  stored_message (ErrorBody JNull) fallback catch_fallback
  = message (JsValue.TypeError_null "detail").
Proof. reflexivity. Qed.

(** A truthy [detail] of any type: its conversion to a string, or the
    message of the exception the conversion throws. *)
Lemma stored_message_truthy_detail (v d : Json) (fallback catch_fallback : string) :
  JsValue.get v "detail" = Normal (Some d) ->
  JsValue.ToBoolean (Some d) = true ->
  stored_message (ErrorBody v) fallback catch_fallback
  = JsValue.or_string
      (match JsValue.ToString d with Normal text => text | Throw e => message e end)
      catch_fallback.
Proof.
  unfold stored_message, raised. intros -> H.
  unfold JsValue.or_else, JsValue.new_Error. rewrite H.
  now destruct (JsValue.ToString d).
Qed.

(** [fetchVms] on a failure. *)
Lemma fetchVms_Failed (net : FetchOutcome (list VM)) (f : Failure)
    (st : ControllerState) :
  classify net = Failed f ->
  fetchVms net st
  = (Normal tt,
     with_isLoading false
       (with_vms []
          (with_error (Some (stored_message f fetch_fallback network_fallback))
             (started st))),
     [SetIsLoading true; SetError None; Fetch "GET" vms_url;
      ConsoleError "Error al obtener VMs:" (message (raised f fetch_fallback));
      SetError (Some (stored_message f fetch_fallback network_fallback));
      SetVms []; SetIsLoading false]).
Proof.
  intros H. destruct st. answer net; try discriminate;
    inversion H; subst; try reflexivity.
  cbn [raised]. destruct (JsValue.get v "detail") as [detail | e']; [|reflexivity].
  now destruct (JsValue.new_Error _).
Qed.

(** [fetchVms] on a 2xx answer whose body is the array [data]. *)
Lemma fetchVms_Succeeded (net : FetchOutcome (list VM)) (data : list VM)
    (st : ControllerState) :
  classify net = Succeeded (JsonValue data) ->
  fetchVms net st
  = (Normal tt, with_isLoading false (with_vms data (started st)),
     [SetIsLoading true; SetError None; Fetch "GET" vms_url;
      SetVms data; SetIsLoading false]).
Proof.
  intros H. destruct st. answer net; try discriminate.
  inversion H; subst. reflexivity.
Qed.

(** [fetchVms] on any answer: it returns normally, and between its
    request and its final [setIsLoading(false)] nothing is requested,
    signalled or written to [isLoading]. *)
Lemma fetchVms_shape (net : FetchOutcome (list VM)) (st : ControllerState) :
  exists (st' : ControllerState) (mid : list Event),
    fetchVms net st
    = (Normal tt, with_isLoading false st',
       ([SetIsLoading true; SetError None; Fetch "GET" vms_url]
        ++ mid ++ [SetIsLoading false])%list)
    /\ Forall quiet mid.
Proof.
  destruct (classify net) as [f | [e | data]] eqn:E.
  - rewrite (fetchVms_Failed _ _ _ E).
    eexists _, [_; _; _]. split; [reflexivity|].
    repeat constructor.
  - destruct st. answer net; try discriminate. inversion E; subst.
    eexists (mkState _ _ _ _ _ _), [_; _; _]. split; [reflexivity|].
    repeat constructor.
  - rewrite (fetchVms_Succeeded _ _ _ E).
    eexists _, [_]. split; [reflexivity|]. repeat constructor.
Qed.

(** [handleTogglePower] on a failing POST. *)
Lemma handleTogglePower_Failed {T : Type} (vmName zone : string)
    (currentStatus : VMStatus) (post : FetchOutcome T)
    (refresh : FetchOutcome (list VM)) (f : Failure) (st : ControllerState) :
  classify post = Failed f ->
  handleTogglePower vmName zone currentStatus post refresh st
  = (Normal tt,
     with_isLoading false
       (with_error
          (Some (stored_message f (toggle_fallback vmName) (toggle_fallback vmName)))
          (started st)),
     [SetIsLoading true; SetError None;
      Fetch "POST" (toggle_url vmName zone currentStatus);
      ConsoleError "Error al cambiar el estado:"
        (message (raised f (toggle_fallback vmName)));
      SetError
        (Some (stored_message f (toggle_fallback vmName) (toggle_fallback vmName)));
      SetIsLoading false]).
Proof.
  intros H. destruct st. answer post; try discriminate;
    inversion H; subst; try reflexivity.
  cbn [raised]. destruct (JsValue.get v "detail") as [detail | e']; [|reflexivity].
  now destruct (JsValue.new_Error _).
Qed.

(** [handleTogglePower] on a 2xx POST: the [fetchVms] call, the
    acknowledgement, the cleanup. *)
Lemma handleTogglePower_Succeeded {T : Type} (vmName zone : string)
    (currentStatus : VMStatus) (post : FetchOutcome T) (body : JsonOutcome T)
    (refresh : FetchOutcome (list VM)) (st : ControllerState) :
  classify post = Succeeded body ->
  handleTogglePower vmName zone currentStatus post refresh st
  = (Normal tt,
     with_isLoading false (final_state (fetchVms refresh) (started st)),
     ([SetIsLoading true; SetError None;
       Fetch "POST" (toggle_url vmName zone currentStatus)]
      ++ events (fetchVms refresh) (started st)
      ++ [Alert (toggle_done vmName); SetIsLoading false])%list).
Proof.
  intros H.
  destruct (fetchVms_shape refresh (started st)) as [st' [mid [E _]]].
  unfold final_state, events. rewrite E. cbn [fst snd].
  destruct post as [e | [s j]]; run_outer; [discriminate|].
  generalize dependent j. destruct (ok_status s); intros j H; [|destruct j; discriminate].
  fold (started st). rewrite E. cbn [app]. rewrite <- !app_assoc. reflexivity.
Qed.

(** [handleConnect] on a failing POST. *)
Lemma handleConnect_Failed (vmName zone : string) (ipExternal : option string)
    (post : FetchOutcome ConnectReply) (f : Failure) (st : ControllerState) :
  classify post = Failed f ->
  handleConnect vmName zone ipExternal post st
  = (Normal tt,
     with_isLoading false
       (with_error
          (Some (stored_message f (connect_fallback vmName) (connect_fallback vmName)))
          (started st)),
     [SetIsLoading true; SetError None;
      Fetch "POST" (connect_url vmName zone ipExternal);
      ConsoleError "Error al conectar:"
        (message (raised f (connect_fallback vmName)));
      SetError
        (Some (stored_message f (connect_fallback vmName) (connect_fallback vmName)));
      SetIsLoading false]).
Proof.
  intros H. destruct st. answer post; try discriminate;
    inversion H; subst; try reflexivity.
  cbn [raised]. destruct (JsValue.get v "detail") as [detail | e']; [|reflexivity].
  now destruct (JsValue.new_Error _).
Qed.

End OperationFacts.

(** ** The operations: the claims *)

(** *** Failing [fetchVms] *)

(** C2, as stated, fails: on a 502 whose body is not JSON the stored
    error is the parser's message, which is neither a server detail nor
    one of the two generic messages of [fetchVms]. *)
Lemma fetchVms_unparseable_body_not_generic :
  classify (@bad_gateway (list VM)) = Failed (BadBody html_error)
  /\ error (final_state (fetchVms bad_gateway) loaded_state)
     = Some "Unexpected token < in JSON at position 0"
  /\ ~ Stated.fetchVms_failure bad_gateway loaded_state.
Proof.
  split; [reflexivity|]. split; [reflexivity|].
  intros H. destruct (H _ eq_refl) as [_ [m [E G]]].
  inversion E; subst m. destruct G as [G | G]; discriminate G.
Qed.

(** C2, amended.  For every [fetchVms] call that fails (non-2xx response
    or network failure), [vms] is set to the empty sequence, whatever was
    loaded, and [error] to the message of the exception that ends the
    [try] block: the server-supplied detail when the body parses to an
    object with a non-empty string [detail]; the string conversion of any
    other truthy [detail], or the message of the [TypeError] that
    conversion throws; the first generic message when the parsed body is
    not [null] and has no truthy [detail]; the message of the [TypeError]
    of reading [detail] when the body is [null]; the parser's or the
    network failure's own message when the body does not parse or no
    response came.  The second generic message stands in only for an
    empty message. *)
Theorem fetchVms_failure_state
    (net : FetchOutcome (list VM)) (f : Failure) (st : ControllerState) :
  classify net = Failed f ->
  vms (final_state (fetchVms net) st) = []
  /\ error (final_state (fetchVms net) st)
     = Some (stored_message f fetch_fallback network_fallback)
  /\ (forall d : string,
        server_detail f = Some d ->
        error (final_state (fetchVms net) st) = Some d)
  /\ (forall v d : Json,
        f = ErrorBody v ->
        JsValue.get v "detail" = Normal (Some d) ->
        JsValue.ToBoolean (Some d) = true ->
        error (final_state (fetchVms net) st)
        = Some (JsValue.or_string
                  (match JsValue.ToString d with
                   | Normal text => text
                   | Throw e => message e
                   end) network_fallback))
  /\ (forall (v : Json) (detail : option Json),
        f = ErrorBody v ->
        JsValue.get v "detail" = Normal detail ->
        JsValue.ToBoolean detail = false ->
        error (final_state (fetchVms net) st) = Some fetch_fallback)
  /\ (f = ErrorBody JNull ->
      error (final_state (fetchVms net) st)
      = Some (message (JsValue.TypeError_null "detail")))
  /\ (forall e : JsError,
        f = BadBody e \/ f = NetworkFailure e ->
        error (final_state (fetchVms net) st)
        = Some (if Js.truthy_string (message e) then message e
                else network_fallback)).
Proof.
  intros H. unfold final_state. rewrite (fetchVms_Failed _ _ _ H).
  cbn [fst snd with_isLoading with_vms with_error vms error].
  split; [reflexivity|]. split; [reflexivity|].
  split; [|split; [|split; [|split]]].
  - intros d Hd. now rewrite (stored_message_detail _ _ _ _ Hd).
  - intros v d -> Hget Htruthy.
    now rewrite (stored_message_truthy_detail _ _ _ _ Hget Htruthy).
  - intros v detail -> Hget Hfalsy.
    now rewrite (stored_message_no_detail _ _ _ _ Hget Hfalsy).
  - intros ->. now rewrite stored_message_null.
  - intros e [-> | ->]; reflexivity.
Qed.

(** The spec's example: a 500 with body [{detail: "boom"}] empties [vms]
    and stores "boom". *)
Lemma fetchVms_500_boom :
  classify (@boom (list VM)) = Failed (ErrorBody (JObject [("detail", JString "boom")]))
  /\ vms (final_state (fetchVms boom) loaded_state) = []
  /\ error (final_state (fetchVms boom) loaded_state) = Some "boom".
Proof.
  split; [reflexivity|].
  destruct (fetchVms_failure_state boom _ loaded_state eq_refl)
    as [Hvms [_ [Hdetail _]]].
  split; [exact Hvms | exact (Hdetail "boom" eq_refl)].
Defined.

(** *** Non-2xx answers whose body is not JSON *)

(** C4, as stated, fails in each of the three operations: the stored
    error is the parser's message, not the operation's generic one. *)
Lemma unparseable_body_not_generic :
  error (final_state (fetchVms bad_gateway) loaded_state)
  = Some (message html_error)
  /\ error (final_state
              (handleTogglePower "web-1" "us-1" Running
                 (@bad_gateway Json) bad_gateway) loaded_state)
     = Some (message html_error)
  /\ error (final_state
              (handleConnect "web-1" "us-1" None bad_gateway) loaded_state)
     = Some (message html_error)
  /\ ~ Stated.unparseable_is_generic "web-1" "us-1" Running None
         bad_gateway bad_gateway bad_gateway loaded_state.
Proof.
  repeat (split; [reflexivity|]).
  intros H. destruct (H _ _ _ eq_refl eq_refl eq_refl) as [_ [E _]].
  discriminate E.
Qed.

(** C4, amended.  For every non-2xx response whose body cannot be parsed
    as JSON, in each of the three operations, the stored error message is
    the parse error's own message; the operation's generic fallback
    message is stored only when that message is empty. *)
Theorem unparseable_body_message
    (vmName zone : string) (currentStatus : VMStatus)
    (ipExternal : option string)
    (get : FetchOutcome (list VM)) (toggle : FetchOutcome Json)
    (refresh : FetchOutcome (list VM)) (connect : FetchOutcome ConnectReply)
    (e1 e2 e3 : JsError) (st : ControllerState) :
  classify get = Failed (BadBody e1) ->
  classify toggle = Failed (BadBody e2) ->
  classify connect = Failed (BadBody e3) ->
  error (final_state (fetchVms get) st)
  = Some (if Js.truthy_string (message e1) then message e1
          else network_fallback)
  /\ error (final_state
              (handleTogglePower vmName zone currentStatus toggle refresh) st)
     = Some (if Js.truthy_string (message e2) then message e2
             else toggle_fallback vmName)
  /\ error (final_state (handleConnect vmName zone ipExternal connect) st)
     = Some (if Js.truthy_string (message e3) then message e3
             else connect_fallback vmName).
Proof.
  intros H1 H2 H3. unfold final_state.
  rewrite (fetchVms_Failed _ _ _ H1),
    (handleTogglePower_Failed _ _ _ _ _ _ _ H2),
    (handleConnect_Failed _ _ _ _ _ _ H3).
  repeat split.
Qed.

Lemma unparseable_body_message_witness :
  error (final_state (fetchVms bad_gateway) loaded_state)
  = Some "Unexpected token < in JSON at position 0"
  /\ error (final_state
              (handleTogglePower "web-1" "us-1" Running
                 (@bad_gateway Json) (ok_with example_vms)) loaded_state)
     = Some "Unexpected token < in JSON at position 0"
  /\ error (final_state
              (handleConnect "web-1" "us-1" (Some "34.1.2.3") bad_gateway)
              loaded_state)
     = Some "Unexpected token < in JSON at position 0".
Proof.
  exact (unparseable_body_message "web-1" "us-1" Running (Some "34.1.2.3")
           bad_gateway bad_gateway (ok_with example_vms) bad_gateway
           html_error html_error html_error loaded_state
           eq_refl eq_refl eq_refl).
Defined.

(** *** A [detail], or a field, that cannot be converted to a string *)

(** An object with an own [toString] property has no string conversion:
    as a [detail] it makes [new Error] throw, and the three operations
    store the message of that [TypeError]; as the [mensaje] of a 2xx
    answer to [handleConnect] it makes the template literal throw, no
    alert is shown and the same message is stored. *)
Example unconvertible_example :
  error (final_state (fetchVms opaque_detail) loaded_state)
  = Some "Cannot convert object to primitive value"
  /\ error (final_state
              (handleTogglePower "web-1" "us-1" Running
                 (@opaque_detail Json) (ok_with [])) loaded_state)
     = Some "Cannot convert object to primitive value"
  /\ error (final_state
              (handleConnect "web-1" "us-1" None opaque_detail) loaded_state)
     = Some "Cannot convert object to primitive value"
  /\ handleConnect "web-1" "us-1" None
       (ok_with (JObject [("mensaje", opaque_object);
                          ("comando_ssh", JString "ssh web-1")]))
       initial_state
     = (Normal tt,
        with_error (Some "Cannot convert object to primitive value")
          initial_state,
        [SetIsLoading true; SetError None;
         Fetch "POST" "http://localhost:8000/api/vms/web-1/connect?zone=us-1";
         ConsoleError "Error al conectar:"
           "Cannot convert object to primitive value";
         SetError (Some "Cannot convert object to primitive value");
         SetIsLoading false]).
Proof. repeat split. Qed.

(** *** Failing [handleTogglePower] *)

(** C6, as stated, fails: on a 502 whose body is not JSON the error is
    the parser's message, neither a server detail nor the generic per-VM
    message. *)
Lemma toggle_unparseable_body_not_generic :
  classify (@bad_gateway Json) = Failed (BadBody html_error)
  /\ error (final_state
              (handleTogglePower "web-1" "us-1" Running
                 (@bad_gateway Json) (ok_with example_vms)) loaded_state)
     = Some "Unexpected token < in JSON at position 0"
  /\ ~ Stated.toggle_failure "web-1" "us-1" Running
         (@bad_gateway Json) (ok_with example_vms) loaded_state.
Proof.
  split; [reflexivity|]. split; [reflexivity|].
  intros H. destruct (H _ eq_refl) as [[m [E G]] _].
  rewrite G in E. cbv in E. discriminate E.
Qed.

(** C6, amended.  For every [handleTogglePower] call that fails (non-2xx
    or network failure), no [fetchVms] refetch is issued (the POST is the
    only request and [vms] is never written), [vms] is left as the last
    known snapshot, and [error] is set to the message of the exception
    that ends the [try] block: the server detail when the body parses to
    an object with a non-empty string [detail]; the string conversion of
    any other truthy [detail], or the message of the [TypeError] that
    conversion throws; the generic per-VM message when the parsed body is
    not [null] and has no truthy [detail]; the message of the [TypeError]
    of reading [detail] when the body is [null]; the parser's or the
    network failure's own message otherwise.  The generic per-VM message
    stands in for an empty message. *)
Theorem toggle_failure_state {T : Type}
    (vmName zone : string) (currentStatus : VMStatus)
    (post : FetchOutcome T) (refresh : FetchOutcome (list VM))
    (f : Failure) (st : ControllerState) :
  classify post = Failed f ->
  vms (final_state (handleTogglePower vmName zone currentStatus post refresh) st)
  = vms st
  /\ filter is_Fetch
       (events (handleTogglePower vmName zone currentStatus post refresh) st)
     = [Fetch "POST" (toggle_url vmName zone currentStatus)]
  /\ filter is_SetVms
       (events (handleTogglePower vmName zone currentStatus post refresh) st)
     = []
  /\ error (final_state (handleTogglePower vmName zone currentStatus post refresh) st)
     = Some (stored_message f (toggle_fallback vmName) (toggle_fallback vmName))
  /\ (forall d : string,
        server_detail f = Some d ->
        error (final_state
                 (handleTogglePower vmName zone currentStatus post refresh) st)
        = Some d)
  /\ (forall v d : Json,
        f = ErrorBody v ->
        JsValue.get v "detail" = Normal (Some d) ->
        JsValue.ToBoolean (Some d) = true ->
        error (final_state
                 (handleTogglePower vmName zone currentStatus post refresh) st)
        = Some (JsValue.or_string
                  (match JsValue.ToString d with
                   | Normal text => text
                   | Throw e => message e
                   end) (toggle_fallback vmName)))
  /\ (forall (v : Json) (detail : option Json),
        f = ErrorBody v ->
        JsValue.get v "detail" = Normal detail ->
        JsValue.ToBoolean detail = false ->
        error (final_state
                 (handleTogglePower vmName zone currentStatus post refresh) st)
        = Some (toggle_fallback vmName))
  /\ (f = ErrorBody JNull ->
      error (final_state
               (handleTogglePower vmName zone currentStatus post refresh) st)
      = Some (message (JsValue.TypeError_null "detail")))
  /\ (forall e : JsError,
        f = BadBody e \/ f = NetworkFailure e ->
        error (final_state
                 (handleTogglePower vmName zone currentStatus post refresh) st)
        = Some (if Js.truthy_string (message e) then message e
                else toggle_fallback vmName)).
Proof.
  intros H. unfold final_state, events.
  rewrite (handleTogglePower_Failed _ _ _ _ _ _ _ H).
  cbn [fst snd with_isLoading with_error started vms error filter
       is_Fetch is_SetVms].
  repeat (split; [reflexivity|]). split; [|split; [|split; [|split]]].
  - intros d Hd. now rewrite (stored_message_detail _ _ _ _ Hd).
  - intros v d -> Hget Htruthy.
    now rewrite (stored_message_truthy_detail _ _ _ _ Hget Htruthy).
  - intros v detail -> Hget Hfalsy.
    now rewrite (stored_message_no_detail _ _ _ _ Hget Hfalsy).
  - intros ->. now rewrite stored_message_null.
  - intros e [-> | ->]; reflexivity.
Qed.

Lemma toggle_failure_state_witness :
  classify (@boom Json) = Failed (ErrorBody (JObject [("detail", JString "boom")]))
  /\ vms (final_state
            (handleTogglePower "web-1" "us-1" Running (@boom Json)
               (ok_with []) ) loaded_state)
     = example_vms
  /\ error (final_state
              (handleTogglePower "web-1" "us-1" Running (@boom Json)
                 (ok_with [])) loaded_state)
     = Some "boom".
Proof.
  split; [reflexivity|].
  destruct (toggle_failure_state "web-1" "us-1" Running (@boom Json)
              (ok_with []) _ loaded_state eq_refl)
    as [Hvms [_ [_ [_ [Hdetail _]]]]].
  split; [exact Hvms | exact (Hdetail "boom" eq_refl)].
Defined.

(** *** Successful [handleTogglePower] *)

(** C3. For every [handleTogglePower] call whose POST succeeds (2xx),
    exactly one [fetchVms] call is issued: its GET is the one request
    after the POST, it goes out before any [setIsLoading(false)], the
    caller is signalled only after it has completed and cleared the flag,
    and the operation ends with [isLoading] false; when the refresh
    succeeds, [vms] is the server's response. *)
Theorem toggle_success_refreshes_once {T : Type}
    (vmName zone : string) (currentStatus : VMStatus)
    (post : FetchOutcome T) (body : JsonOutcome T)
    (refresh : FetchOutcome (list VM)) (st : ControllerState) :
  classify post = Succeeded body ->
  (exists mid : list Event,
     events (handleTogglePower vmName zone currentStatus post refresh) st
     = ([SetIsLoading true; SetError None;
         Fetch "POST" (toggle_url vmName zone currentStatus);
         SetIsLoading true; SetError None; Fetch "GET" vms_url]
        ++ mid
        ++ [SetIsLoading false; Alert (toggle_done vmName); SetIsLoading false])%list
     /\ Forall quiet mid)
  /\ filter is_Fetch
       (events (handleTogglePower vmName zone currentStatus post refresh) st)
     = [Fetch "POST" (toggle_url vmName zone currentStatus); Fetch "GET" vms_url]
  /\ isLoading
       (final_state (handleTogglePower vmName zone currentStatus post refresh) st)
     = false
  /\ completion (handleTogglePower vmName zone currentStatus post refresh) st
     = Normal tt
  /\ (forall data : list VM,
        classify refresh = Succeeded (JsonValue data) ->
        vms (final_state
               (handleTogglePower vmName zone currentStatus post refresh) st)
        = data).
Proof.
  intros H. unfold final_state, events, completion.
  rewrite (handleTogglePower_Succeeded _ _ _ _ _ _ _ H).
  cbn [fst snd with_isLoading isLoading vms].
  destruct (fetchVms_shape refresh (started st)) as [st' [mid [E Hmid]]].
  assert (Hquiet : filter is_Fetch mid = []).
  { clear E. induction Hmid as [|x l [Hx _] _ IH]; simpl; [reflexivity|].
    now rewrite Hx. }
  split; [|split; [|split; [reflexivity|split; [reflexivity|]]]].
  - exists mid. split; [|assumption].
    unfold events. rewrite E. cbn [snd app]. now rewrite <- !app_assoc.
  - unfold events. rewrite E. cbn [snd app filter is_Fetch].
    rewrite !filter_app, Hquiet. reflexivity.
  - intros data Hdata. unfold final_state.
    now rewrite (fetchVms_Succeeded _ _ _ Hdata).
Qed.

Lemma toggle_success_refreshes_once_witness :
  events (handleTogglePower "web-1" "us-1" Running
            (ok_with JNull) (ok_with (rev example_vms))) loaded_state
  = [SetIsLoading true; SetError None;
     Fetch "POST" (toggle_url "web-1" "us-1" Running);
     SetIsLoading true; SetError None; Fetch "GET" vms_url;
     SetVms (rev example_vms);
     SetIsLoading false; Alert (toggle_done "web-1"); SetIsLoading false]
  /\ vms (final_state
            (handleTogglePower "web-1" "us-1" Running
               (ok_with JNull) (ok_with (rev example_vms))) loaded_state)
     = rev example_vms.
Proof.
  destruct (toggle_success_refreshes_once "web-1" "us-1" Running
              (ok_with JNull) _ (ok_with (rev example_vms)) loaded_state eq_refl)
    as [_ [_ [_ [_ Hvms]]]].
  split; [reflexivity | exact (Hvms _ eq_refl)].
Defined.

(** C9. If the POST of a [handleTogglePower] call succeeds but the
    [fetchVms] refresh fails, the state ends with [vms] empty and [error]
    set to the fetch failure message, and completion is still signalled
    to the caller: the acknowledgement fires after the failed refresh. *)
Theorem toggle_success_refresh_failure {T : Type}
    (vmName zone : string) (currentStatus : VMStatus)
    (post : FetchOutcome T) (body : JsonOutcome T)
    (refresh : FetchOutcome (list VM)) (f : Failure) (st : ControllerState) :
  classify post = Succeeded body ->
  classify refresh = Failed f ->
  vms (final_state (handleTogglePower vmName zone currentStatus post refresh) st)
  = []
  /\ error (final_state (handleTogglePower vmName zone currentStatus post refresh) st)
     = Some (stored_message f fetch_fallback network_fallback)
  /\ error (final_state (handleTogglePower vmName zone currentStatus post refresh) st)
     = error (final_state (fetchVms refresh) st)
  /\ events (handleTogglePower vmName zone currentStatus post refresh) st
     = [SetIsLoading true; SetError None;
        Fetch "POST" (toggle_url vmName zone currentStatus);
        SetIsLoading true; SetError None; Fetch "GET" vms_url;
        ConsoleError "Error al obtener VMs:" (message (raised f fetch_fallback));
        SetError (Some (stored_message f fetch_fallback network_fallback));
        SetVms []; SetIsLoading false;
        Alert (toggle_done vmName); SetIsLoading false]
  /\ completion (handleTogglePower vmName zone currentStatus post refresh) st
     = Normal tt.
Proof.
  intros Hpost Hrefresh. unfold final_state, events, completion.
  rewrite (handleTogglePower_Succeeded _ _ _ _ _ _ _ Hpost).
  unfold final_state, events. rewrite !(fetchVms_Failed _ _ _ Hrefresh).
  repeat split.
Qed.

Lemma toggle_success_refresh_failure_witness :
  vms (final_state
         (handleTogglePower "web-1" "us-1" Running (ok_with JNull) boom)
         loaded_state)
  = []
  /\ error (final_state
              (handleTogglePower "web-1" "us-1" Running (ok_with JNull) boom)
              loaded_state)
     = Some "boom"
  /\ In (Alert (toggle_done "web-1"))
       (events (handleTogglePower "web-1" "us-1" Running (ok_with JNull) boom)
          loaded_state).
Proof.
  destruct (toggle_success_refresh_failure "web-1" "us-1" Running
              (ok_with JNull) _ boom _ loaded_state eq_refl eq_refl)
    as [Hvms [Herr [_ [Hev _]]]].
  split; [exact Hvms|]. split; [exact Herr|].
  rewrite Hev. simpl. tauto.
Defined.

(** *** [handleConnect] *)

(** [handleConnect] on a 2xx answer whose body gives the alert its
    text. *)
Lemma handleConnect_Succeeded (vmName zone : string) (ipExternal : option string)
    (post : FetchOutcome ConnectReply) (data : Json) (text : string)
    (st : ControllerState) :
  classify post = Succeeded (JsonValue data) ->
  connect_message data = Normal text ->
  handleConnect vmName zone ipExternal post st
  = (Normal tt, with_isLoading false (started st),
     [SetIsLoading true; SetError None;
      Fetch "POST" (connect_url vmName zone ipExternal);
      Alert text; SetIsLoading false]).
Proof.
  intros H Htext. destruct st. answer post; try discriminate.
  inversion H; subst. rewrite Htext. reflexivity.
Qed.

(** [handleConnect] on a 2xx answer whose body does not parse, or does
    not give the alert its text: the exception is caught like a
    failure. *)
Lemma handleConnect_Succeeded_Throw (vmName zone : string)
    (ipExternal : option string) (post : FetchOutcome ConnectReply)
    (body : JsonOutcome Json) (e : JsError) (st : ControllerState) :
  classify post = Succeeded body ->
  body = JsonThrows e
  \/ (exists data, body = JsonValue data /\ connect_message data = Throw e) ->
  handleConnect vmName zone ipExternal post st
  = (Normal tt,
     with_isLoading false
       (with_error
          (Some (JsValue.or_string (message e) (connect_fallback vmName)))
          (started st)),
     [SetIsLoading true; SetError None;
      Fetch "POST" (connect_url vmName zone ipExternal);
      ConsoleError "Error al conectar:" (message e);
      SetError (Some (JsValue.or_string (message e) (connect_fallback vmName)));
      SetIsLoading false]).
Proof.
  intros H Hbody. destruct st. answer post; try discriminate.
  inversion H; subst. destruct Hbody as [-> | [data [-> Hdata]]].
  - reflexivity.
  - rewrite Hdata. reflexivity.
Qed.

(** [handleConnect] on any answer: it returns normally, having issued its
    POST and nothing else, written [error] and [isLoading] and nothing
    else, and cleared [isLoading] last. *)
Lemma handleConnect_shape (vmName zone : string) (ipExternal : option string)
    (post : FetchOutcome ConnectReply) (st : ControllerState) :
  exists (err : option string) (evs : list Event),
    handleConnect vmName zone ipExternal post st
    = (Normal tt, with_isLoading false (with_error err (started st)),
       (evs ++ [SetIsLoading false])%list)
    /\ filter is_Fetch evs = [Fetch "POST" (connect_url vmName zone ipExternal)]
    /\ filter is_SetVms evs = [].
Proof.
  destruct (classify post) as [f | [e | data]] eqn:E.
  - rewrite (handleConnect_Failed _ _ _ _ _ _ E).
    eexists _, [_; _; _; _; _]. repeat split.
  - rewrite (handleConnect_Succeeded_Throw _ _ _ _ _ e _ E (or_introl eq_refl)).
    eexists _, [_; _; _; _; _]. repeat split.
  - destruct (connect_message data) as [text | e] eqn:Htext.
    + rewrite (handleConnect_Succeeded _ _ _ _ _ _ _ E Htext).
      exists None. destruct st. eexists [_; _; _; _]. repeat split.
    + rewrite (handleConnect_Succeeded_Throw _ _ _ _ _ e _ E
                 (or_intror (ex_intro _ data (conj eq_refl Htext)))).
      eexists _, [_; _; _; _; _]. repeat split.
Qed.


(** The two paths of C8 on concrete answers. *)
Example connect_example :
  events (handleConnect "web-1" "us-1" (Some "34.1.2.3")
            (ok_with (JObject [("mensaje", JString "Listo");
                               ("comando_ssh", JString "gcloud compute ssh web-1")])))
    loaded_state
  = [SetIsLoading true; SetError None;
     Fetch "POST"
       "http://localhost:8000/api/vms/web-1/connect?zone=us-1&ip_external=34.1.2.3";
     Alert ("Listo" ++ String "010" "Comando: gcloud compute ssh web-1");
     SetIsLoading false]
  /\ final_state (handleConnect "web-1" "us-1" None boom) loaded_state
     = with_isLoading false (with_error (Some "boom") loaded_state).
Proof. split; reflexivity. Qed.

(** *** The loading flag *)

(** Whatever the [try] and [catch] blocks do, a [finally] block that
    clears [isLoading] leaves it cleared, as the last event. *)
Lemma finally_clears_isLoading (body : M unit) (handler : JsError -> M unit)
    (st : ControllerState) :
  isLoading (final_state (try_catch_finally body handler (setIsLoading false)) st)
  = false
  /\ exists evs : list Event,
       events (try_catch_finally body handler (setIsLoading false)) st
       = (evs ++ [SetIsLoading false])%list.
Proof.
  unfold final_state, events, try_catch_finally, setIsLoading.
  destruct (body st) as [[[a | e] st1] ev1].
  - split; [reflexivity|]. exists ev1. reflexivity.
  - destruct (handler e st1) as [[c2 st2] ev2].
    split; [reflexivity|]. exists (ev1 ++ ev2)%list. cbn [snd].
    now rewrite app_assoc.
Qed.

(** C7. Each of the three operations sets [isLoading] to false when it
    completes, on the success path and on every failure path: whatever
    the network answers, the operation returns normally, its last event
    is [setIsLoading(false)] and the state it leaves has [isLoading]
    false; the cleanup is the [finally] block, which runs whatever the
    [try] and [catch] blocks do. *)
Theorem isLoading_cleared_on_completion :
  (forall (net : FetchOutcome (list VM)) (st : ControllerState),
     completion (fetchVms net) st = Normal tt
     /\ isLoading (final_state (fetchVms net) st) = false
     /\ exists evs, events (fetchVms net) st = (evs ++ [SetIsLoading false])%list)
  /\ (forall (T : Type) (vmName zone : string) (currentStatus : VMStatus)
        (post : FetchOutcome T) (refresh : FetchOutcome (list VM))
        (st : ControllerState),
        completion (handleTogglePower vmName zone currentStatus post refresh) st
        = Normal tt
        /\ isLoading
             (final_state
                (handleTogglePower vmName zone currentStatus post refresh) st)
           = false
        /\ exists evs,
             events (handleTogglePower vmName zone currentStatus post refresh) st
             = (evs ++ [SetIsLoading false])%list)
  /\ (forall (vmName zone : string) (ipExternal : option string)
        (post : FetchOutcome ConnectReply) (st : ControllerState),
        completion (handleConnect vmName zone ipExternal post) st = Normal tt
        /\ isLoading (final_state (handleConnect vmName zone ipExternal post) st)
           = false
        /\ exists evs,
             events (handleConnect vmName zone ipExternal post) st
             = (evs ++ [SetIsLoading false])%list)
  /\ (forall (body : M unit) (handler : JsError -> M unit) (st : ControllerState),
        isLoading
          (final_state (try_catch_finally body handler (setIsLoading false)) st)
        = false).
Proof.
  split; [|split; [|split]].
  - intros net st. unfold completion, final_state, events.
    destruct (fetchVms_shape net st) as [st' [mid [E _]]]. rewrite E.
    split; [reflexivity|]. split; [reflexivity|].
    eexists. cbn [snd]. rewrite app_assoc. reflexivity.
  - intros T vmName zone currentStatus post refresh st.
    unfold completion, final_state, events.
    destruct (classify post) as [f | body] eqn:E.
    + rewrite (handleTogglePower_Failed _ _ _ _ _ _ _ E).
      split; [reflexivity|]. split; [reflexivity|].
      eexists [_; _; _; _; _]. reflexivity.
    + rewrite (handleTogglePower_Succeeded _ _ _ _ _ _ _ E).
      split; [reflexivity|]. split; [reflexivity|].
      exists ([SetIsLoading true; SetError None;
               Fetch "POST" (toggle_url vmName zone currentStatus)]
              ++ snd (fetchVms refresh (started st))
              ++ [Alert (toggle_done vmName)])%list.
      cbn [snd]. unfold events. now rewrite <- !app_assoc.
  - intros vmName zone ipExternal post st.
    unfold completion, final_state, events.
    destruct (handleConnect_shape vmName zone ipExternal post st)
      as [err [evs [E _]]]. rewrite E.
    split; [reflexivity|]. split; [reflexivity|]. now exists evs.
  - intros body handler st. apply finally_clears_isLoading.
Qed.

(** * Further properties of the component *)

(** ** More on [fetchVms] *)

Section FetchFacts.

(** [fetchVms] on a 2xx answer whose body is not JSON: the parser's
    exception takes the failure path. *)
Lemma fetchVms_Succeeded_throws (net : FetchOutcome (list VM)) (e : JsError)
    (st : ControllerState) :
  classify net = Succeeded (JsonThrows e) ->
  fetchVms net st
  = (Normal tt,
     with_isLoading false
       (with_vms []
          (with_error (Some (JsValue.or_string (message e) network_fallback))
             (started st))),
     [SetIsLoading true; SetError None; Fetch "GET" vms_url;
      ConsoleError "Error al obtener VMs:" (message e);
      SetError (Some (JsValue.or_string (message e) network_fallback));
      SetVms []; SetIsLoading false]).
Proof.
  intros H. destruct st. answer net; try discriminate.
  inversion H; subst. reflexivity.
Qed.

(** What [fetchVms] leaves depends on the answer and on the filters of
    the state it started from, on nothing else; the error it leaves, if
    any, is [m || network_fallback] for some [m]. *)
Lemma fetchVms_final_form (net : FetchOutcome (list VM)) :
  exists (v : list VM) (err : option string),
    (forall st : ControllerState,
       final_state (fetchVms net) st
       = {| vms := v; searchTerm := searchTerm st;
            statusFilter := statusFilter st; zoneFilter := zoneFilter st;
            isLoading := false; error := err |})
    /\ (err = None
        \/ exists m, err = Some (JsValue.or_string m network_fallback)).
Proof.
  destruct (classify net) as [f | [e | data]] eqn:E.
  - exists [], (Some (stored_message f fetch_fallback network_fallback)).
    split; [|right; eexists; reflexivity].
    intros st. unfold final_state. now rewrite (fetchVms_Failed _ _ _ E).
  - exists [], (Some (JsValue.or_string (message e) network_fallback)).
    split; [|right; eexists; reflexivity].
    intros st. unfold final_state. now rewrite (fetchVms_Succeeded_throws _ _ _ E).
  - exists data, None. split; [|now left].
    intros st. unfold final_state. now rewrite (fetchVms_Succeeded _ _ _ E).
Qed.

Lemma or_string_not_empty (m fallback : string) :
  Js.truthy_string fallback = true ->
  Js.truthy_string (JsValue.or_string m fallback) = true.
Proof.
  intros H. unfold JsValue.or_string.
  destruct (Js.truthy_string m) eqn:E; assumption.
Qed.

Lemma truthy_not_empty (m : string) :
  Js.truthy_string m = true -> m <> "".
Proof. intros H ->. discriminate H. Qed.

End FetchFacts.

(** X1. A [fetchVms] call answered by a 2xx response whose body is the
    array [data] leaves [vms] equal to [data], in the same order, [error]
    cleared and [isLoading] false, keeps the filters, and writes [vms]
    once. *)
Theorem fetchVms_success_state
    (net : FetchOutcome (list VM)) (data : list VM) (st : ControllerState) :
  classify net = Succeeded (JsonValue data) ->
  final_state (fetchVms net) st
  = {| vms := data; searchTerm := searchTerm st;
       statusFilter := statusFilter st; zoneFilter := zoneFilter st;
       isLoading := false; error := None |}
  /\ events (fetchVms net) st
     = [SetIsLoading true; SetError None; Fetch "GET" vms_url;
        SetVms data; SetIsLoading false].
Proof.
  intros H. unfold final_state, events.
  rewrite (fetchVms_Succeeded _ _ _ H). split; reflexivity.
Qed.

Lemma fetchVms_success_state_witness :
  vms (final_state (fetchVms (ok_with (rev example_vms))) loaded_state)
  = rev example_vms
  /\ error (final_state (fetchVms (ok_with (rev example_vms))) loaded_state)
     = None.
Proof.
  destruct (fetchVms_success_state (ok_with (rev example_vms)) _ loaded_state
              eq_refl) as [Hst _].
  rewrite Hst. split; reflexivity.
Defined.

(** X2. A 2xx answer does not make a [fetchVms] call succeed by itself:
    when its body cannot be parsed, the loaded snapshot is discarded
    ([vms] empty) and [error] is the parser's message (the generic one
    when that is empty), as for a failed request. *)
Theorem fetchVms_2xx_unparseable
    (net : FetchOutcome (list VM)) (e : JsError) (st : ControllerState) :
  classify net = Succeeded (JsonThrows e) ->
  vms (final_state (fetchVms net) st) = []
  /\ error (final_state (fetchVms net) st)
     = Some (if Js.truthy_string (message e) then message e
             else network_fallback)
  /\ isLoading (final_state (fetchVms net) st) = false.
Proof.
  intros H. unfold final_state.
  rewrite (fetchVms_Succeeded_throws _ _ _ H). repeat split.
Qed.

Lemma fetchVms_2xx_unparseable_witness :
  vms (final_state (fetchVms ok_unparseable) loaded_state) = []
  /\ error (final_state (fetchVms ok_unparseable) loaded_state)
     = Some "Unexpected token < in JSON at position 0".
Proof.
  destruct (fetchVms_2xx_unparseable ok_unparseable html_error loaded_state
              eq_refl) as [Hvms [Herr _]].
  split; [exact Hvms | exact Herr].
Defined.

(** X3. [fetchVms] is idempotent for an unchanged answer, and what it
    leaves does not depend on the snapshot, the error or the loading flag
    it started from: two states with the same filters end in the same
    state. *)
Theorem fetchVms_idempotent (net : FetchOutcome (list VM)) (st : ControllerState) :
  final_state (fetchVms net) (final_state (fetchVms net) st)
  = final_state (fetchVms net) st
  /\ forall st' : ControllerState,
       searchTerm st' = searchTerm st ->
       statusFilter st' = statusFilter st ->
       zoneFilter st' = zoneFilter st ->
       final_state (fetchVms net) st' = final_state (fetchVms net) st.
Proof.
  destruct (fetchVms_final_form net) as [v [err [H _]]]. split.
  - rewrite (H (final_state (fetchVms net) st)), !(H st). reflexivity.
  - intros st' H1 H2 H3. rewrite (H st'), (H st), H1, H2, H3. reflexivity.
Qed.

(** ** More on the two actions *)

Section ActionFacts.

(** [handleConnect] on a 2xx answer whose body is not JSON or is [null]:
    the exception of [json()], or of reading [mensaje] on [null], is
    caught like a failure. *)
Lemma handleConnect_Succeeded_throws (vmName zone : string)
    (ipExternal : option string) (post : FetchOutcome ConnectReply)
    (body : JsonOutcome Json) (e : JsError) (st : ControllerState) :
  classify post = Succeeded body ->
  body = JsonThrows e
  \/ (body = JsonValue JNull /\ e = JsValue.TypeError_null "mensaje") ->
  handleConnect vmName zone ipExternal post st
  = (Normal tt,
     with_isLoading false
       (with_error
          (Some (JsValue.or_string (message e) (connect_fallback vmName)))
          (started st)),
     [SetIsLoading true; SetError None;
      Fetch "POST" (connect_url vmName zone ipExternal);
      ConsoleError "Error al conectar:" (message e);
      SetError (Some (JsValue.or_string (message e) (connect_fallback vmName)));
      SetIsLoading false]).
Proof.
  intros H [-> | [-> ->]].
  - now apply (handleConnect_Succeeded_Throw _ _ _ _ _ _ _ H), or_introl.
  - apply (handleConnect_Succeeded_Throw _ _ _ _ _ _ _ H). right.
    now exists JNull.
Qed.

(** Every run of [handleConnect]. *)
Lemma handleConnect_cases (vmName zone : string) (ipExternal : option string)
    (post : FetchOutcome ConnectReply) (st : ControllerState) :
  exists (err : option string) (mid : list Event),
    handleConnect vmName zone ipExternal post st
    = (Normal tt, with_isLoading false (with_error err (started st)),
       [SetIsLoading true; SetError None;
        Fetch "POST" (connect_url vmName zone ipExternal)]
       ++ mid ++ [SetIsLoading false])%list
    /\ (err = None
        \/ exists m, err = Some (JsValue.or_string m (connect_fallback vmName))).
Proof.
  destruct (classify post) as [f | [e | data]] eqn:E.
  - rewrite (handleConnect_Failed _ _ _ _ _ _ E).
    eexists _, [_; _]. split; [reflexivity|]. right. eexists. reflexivity.
  - rewrite (handleConnect_Succeeded_throws _ _ _ _ _ e _ E (or_introl eq_refl)).
    eexists _, [_; _]. split; [reflexivity|]. right. eexists. reflexivity.
  - destruct (connect_message data) as [text | e] eqn:Htext.
    + rewrite (handleConnect_Succeeded _ _ _ _ _ _ _ E Htext).
      exists None. eexists [_]. split; [destruct st; reflexivity | now left].
    + rewrite (handleConnect_Succeeded_Throw _ _ _ _ _ e _ E
                 (or_intror (ex_intro _ data (conj eq_refl Htext)))).
      eexists _, [_; _]. split; [reflexivity|]. right. eexists. reflexivity.
Qed.

(** Every run of [handleTogglePower]: it either keeps the snapshot and
    stores a message, or ends as the refresh alone would. *)
Lemma handleTogglePower_cases {T : Type} (vmName zone : string)
    (currentStatus : VMStatus) (post : FetchOutcome T)
    (refresh : FetchOutcome (list VM)) (st : ControllerState) :
  (exists m,
     final_state (handleTogglePower vmName zone currentStatus post refresh) st
     = with_isLoading false
         (with_error (Some (JsValue.or_string m (toggle_fallback vmName)))
            (started st)))
  \/ ((exists body, classify post = Succeeded body)
      /\ final_state (handleTogglePower vmName zone currentStatus post refresh) st
         = final_state (fetchVms refresh) st).
Proof.
  unfold final_state at 1 2.
  destruct (classify post) as [f | body] eqn:E.
  - left. rewrite (handleTogglePower_Failed _ _ _ _ _ _ _ E).
    eexists. reflexivity.
  - right. split; [now exists body|].
    rewrite (handleTogglePower_Succeeded _ _ _ _ _ _ _ E). cbn [fst snd].
    destruct (fetchVms_final_form refresh) as [v [err [H _]]].
    rewrite (H (started st)), (H st). destruct st. reflexivity.
Qed.

(** A stored error of the form [m || fallback] is not empty, so the
    banner shows it. *)
Lemma banner_shows (err : option string) (fallback : string) :
  Js.truthy_string fallback = true ->
  err = None \/ (exists m, err = Some (JsValue.or_string m fallback)) ->
  err <> Some "" /\ (if truthy_error err then err else None) = err.
Proof.
  intros Hfb [-> | [m ->]]; [split; [discriminate | reflexivity]|].
  pose proof (or_string_not_empty m fallback Hfb) as Ht.
  split.
  - intros H. inversion H as [H']. rewrite H' in Ht. discriminate Ht.
  - cbn [truthy_error]. now rewrite Ht.
Qed.

End ActionFacts.

(** X4. No operation touches the filters: after [handleRefresh] (that is,
    [fetchVms]), [handleTogglePower] or [handleConnect], whatever the
    network answers, [searchTerm], [statusFilter] and [zoneFilter] are
    what they were. *)
Theorem operations_keep_filters :
  (forall (net : FetchOutcome (list VM)) (st : ControllerState),
     searchTerm (final_state (handleRefresh net) st) = searchTerm st
     /\ statusFilter (final_state (handleRefresh net) st) = statusFilter st
     /\ zoneFilter (final_state (handleRefresh net) st) = zoneFilter st)
  /\ (forall (T : Type) (vmName zone : string) (currentStatus : VMStatus)
        (post : FetchOutcome T) (refresh : FetchOutcome (list VM))
        (st : ControllerState),
        searchTerm
          (final_state (handleTogglePower vmName zone currentStatus post refresh) st)
        = searchTerm st
        /\ statusFilter
             (final_state (handleTogglePower vmName zone currentStatus post refresh) st)
           = statusFilter st
        /\ zoneFilter
             (final_state (handleTogglePower vmName zone currentStatus post refresh) st)
           = zoneFilter st)
  /\ (forall (vmName zone : string) (ipExternal : option string)
        (post : FetchOutcome ConnectReply) (st : ControllerState),
        searchTerm (final_state (handleConnect vmName zone ipExternal post) st)
        = searchTerm st
        /\ statusFilter (final_state (handleConnect vmName zone ipExternal post) st)
           = statusFilter st
        /\ zoneFilter (final_state (handleConnect vmName zone ipExternal post) st)
           = zoneFilter st).
Proof.
  assert (Hfetch : forall net st,
             searchTerm (final_state (fetchVms net) st) = searchTerm st
             /\ statusFilter (final_state (fetchVms net) st) = statusFilter st
             /\ zoneFilter (final_state (fetchVms net) st) = zoneFilter st).
  { intros net st. destruct (fetchVms_final_form net) as [v [err [H _]]].
    rewrite (H st). repeat split. }
  split; [exact Hfetch|]. split.
  - intros T vmName zone currentStatus post refresh st.
    destruct (handleTogglePower_cases vmName zone currentStatus post refresh st)
      as [[m ->] | [_ ->]]; [repeat split | apply Hfetch].
  - intros vmName zone ipExternal post st.
    destruct (handleConnect_cases vmName zone ipExternal post st)
      as [err [mid [E _]]].
    unfold final_state. rewrite E. repeat split.
Qed.

(** X5. An operation never stores the empty string as [error]: after
    [fetchVms], [handleTogglePower] or [handleConnect], whatever the
    network answers, [error] is none or a non-empty message, so the error
    banner of the view shows exactly the stored error. *)
Theorem stored_error_never_empty :
  (forall (net : FetchOutcome (list VM)) (st : ControllerState),
     error (final_state (fetchVms net) st) <> Some ""
     /\ errorBanner (render (final_state (fetchVms net) st))
        = error (final_state (fetchVms net) st))
  /\ (forall (T : Type) (vmName zone : string) (currentStatus : VMStatus)
        (post : FetchOutcome T) (refresh : FetchOutcome (list VM))
        (st : ControllerState),
        error (final_state
                 (handleTogglePower vmName zone currentStatus post refresh) st)
        <> Some ""
        /\ errorBanner
             (render (final_state
                        (handleTogglePower vmName zone currentStatus post refresh) st))
           = error (final_state
                      (handleTogglePower vmName zone currentStatus post refresh) st))
  /\ (forall (vmName zone : string) (ipExternal : option string)
        (post : FetchOutcome ConnectReply) (st : ControllerState),
        error (final_state (handleConnect vmName zone ipExternal post) st)
        <> Some ""
        /\ errorBanner
             (render (final_state (handleConnect vmName zone ipExternal post) st))
           = error (final_state (handleConnect vmName zone ipExternal post) st)).
Proof.
  assert (Hfetch : forall net st,
             error (final_state (fetchVms net) st) <> Some ""
             /\ errorBanner (render (final_state (fetchVms net) st))
                = error (final_state (fetchVms net) st)).
  { intros net st. destruct (fetchVms_final_form net) as [v [err [H Herr]]].
    rewrite (H st). cbn [render errorBanner error].
    now apply (banner_shows err network_fallback). }
  split; [exact Hfetch|]. split.
  - intros T vmName zone currentStatus post refresh st.
    destruct (handleTogglePower_cases vmName zone currentStatus post refresh st)
      as [[m ->] | [_ ->]]; [|apply Hfetch].
    cbn [render errorBanner error with_isLoading with_error].
    apply (banner_shows _ (toggle_fallback vmName)); [reflexivity|].
    right. now exists m.
  - intros vmName zone ipExternal post st.
    destruct (handleConnect_cases vmName zone ipExternal post st)
      as [err [mid [E Herr]]].
    unfold final_state. rewrite E.
    cbn [fst snd render errorBanner error with_isLoading with_error].
    now apply (banner_shows err (connect_fallback vmName)).
Qed.

(** X6. Every operation starts the same way: it raises the loading flag,
    clears the previous error, and only then sends its request, which is
    its first request. *)
Theorem operations_start_by_clearing_error :
  (forall (net : FetchOutcome (list VM)) (st : ControllerState),
     exists rest,
       events (fetchVms net) st
       = SetIsLoading true :: SetError None :: Fetch "GET" vms_url :: rest)
  /\ (forall (T : Type) (vmName zone : string) (currentStatus : VMStatus)
        (post : FetchOutcome T) (refresh : FetchOutcome (list VM))
        (st : ControllerState),
        exists rest,
          events (handleTogglePower vmName zone currentStatus post refresh) st
          = SetIsLoading true :: SetError None
            :: Fetch "POST" (toggle_url vmName zone currentStatus) :: rest)
  /\ (forall (vmName zone : string) (ipExternal : option string)
        (post : FetchOutcome ConnectReply) (st : ControllerState),
        exists rest,
          events (handleConnect vmName zone ipExternal post) st
          = SetIsLoading true :: SetError None
            :: Fetch "POST" (connect_url vmName zone ipExternal) :: rest).
Proof.
  split; [|split].
  - intros net st. destruct (fetchVms_shape net st) as [st' [mid [E _]]].
    unfold events. rewrite E. eexists. reflexivity.
  - intros T vmName zone currentStatus post refresh st. unfold events.
    destruct (classify post) as [f | body] eqn:E.
    + rewrite (handleTogglePower_Failed _ _ _ _ _ _ _ E). eexists. reflexivity.
    + rewrite (handleTogglePower_Succeeded _ _ _ _ _ _ _ E). eexists. reflexivity.
  - intros vmName zone ipExternal post st.
    destruct (handleConnect_cases vmName zone ipExternal post st)
      as [err [mid [E _]]].
    unfold events. rewrite E. eexists. reflexivity.
Qed.

(** X7. After a successful POST, [handleTogglePower] leaves exactly the
    state a plain [fetchVms] with the same answer would have left,
    whether that refresh succeeds or fails: nothing of the final state
    comes from the toggle request itself. *)
Theorem toggle_success_is_refresh {T : Type}
    (vmName zone : string) (currentStatus : VMStatus)
    (post : FetchOutcome T) (body : JsonOutcome T)
    (refresh : FetchOutcome (list VM)) (st : ControllerState) :
  classify post = Succeeded body ->
  final_state (handleTogglePower vmName zone currentStatus post refresh) st
  = final_state (fetchVms refresh) st.
Proof.
  intros H. destruct (fetchVms_final_form refresh) as [v [err [Hf _]]].
  unfold final_state at 1.
  rewrite (handleTogglePower_Succeeded _ _ _ _ _ _ _ H). cbn [fst snd].
  rewrite (Hf (started st)), (Hf st). destruct st. reflexivity.
Qed.

Lemma toggle_success_is_refresh_witness :
  final_state (handleTogglePower "web-1" "us-1" Running (ok_with JNull) boom)
    loaded_state
  = final_state (fetchVms boom) loaded_state.
Proof.
  exact (toggle_success_is_refresh "web-1" "us-1" Running (ok_with JNull) _
           boom loaded_state eq_refl).
Defined.

(** X8. [handleTogglePower] never reads the body of a 2xx answer to its
    POST: two successful answers, whatever their bodies (even an
    unparseable one), give the same completion, state and events. *)
Theorem toggle_ignores_success_body {T1 T2 : Type}
    (vmName zone : string) (currentStatus : VMStatus)
    (post1 : FetchOutcome T1) (body1 : JsonOutcome T1)
    (post2 : FetchOutcome T2) (body2 : JsonOutcome T2)
    (refresh : FetchOutcome (list VM)) (st : ControllerState) :
  classify post1 = Succeeded body1 ->
  classify post2 = Succeeded body2 ->
  handleTogglePower vmName zone currentStatus post1 refresh st
  = handleTogglePower vmName zone currentStatus post2 refresh st.
Proof.
  intros H1 H2.
  now rewrite (handleTogglePower_Succeeded _ _ _ _ _ _ _ H1),
    (handleTogglePower_Succeeded _ _ _ _ _ _ _ H2).
Qed.

Lemma toggle_ignores_success_body_witness :
  handleTogglePower "web-1" "us-1" Running (ok_with (JString "done"))
    (ok_with example_vms) loaded_state
  = handleTogglePower "web-1" "us-1" Running (@ok_unparseable Json)
      (ok_with example_vms) loaded_state.
Proof.
  exact (toggle_ignores_success_body "web-1" "us-1" Running
           (ok_with (JString "done")) _ (@ok_unparseable Json) _
           (ok_with example_vms) loaded_state eq_refl eq_refl).
Defined.

(** X9. A 2xx answer does not make a [handleConnect] call succeed by
    itself: when its body cannot be parsed, or is [null], nothing is
    shown to the caller, [error] is set to the message of the exception
    (the generic per-VM message when that is empty) and [vms] is
    unchanged. *)
Theorem connect_2xx_bad_body
    (vmName zone : string) (ipExternal : option string)
    (post : FetchOutcome ConnectReply) (body : JsonOutcome Json) (e : JsError)
    (st : ControllerState) :
  classify post = Succeeded body ->
  body = JsonThrows e
  \/ (body = JsonValue JNull /\ e = JsValue.TypeError_null "mensaje") ->
  error (final_state (handleConnect vmName zone ipExternal post) st)
  = Some (if Js.truthy_string (message e) then message e
          else connect_fallback vmName)
  /\ filter is_Alert (events (handleConnect vmName zone ipExternal post) st) = []
  /\ vms (final_state (handleConnect vmName zone ipExternal post) st) = vms st.
Proof.
  intros H Hbody. unfold final_state, events.
  rewrite (handleConnect_Succeeded_throws _ _ _ _ _ _ _ H Hbody). repeat split.
Qed.

Lemma connect_2xx_bad_body_witness :
  error (final_state (handleConnect "web-1" "us-1" None (ok_with JNull))
           loaded_state)
  = Some "Cannot read properties of null (reading 'mensaje')"
  /\ filter is_Alert
       (events (handleConnect "web-1" "us-1" None (ok_with JNull)) loaded_state)
     = [].
Proof.
  destruct (connect_2xx_bad_body "web-1" "us-1" None (ok_with JNull) _
              (JsValue.TypeError_null "mensaje") loaded_state eq_refl
              (or_intror (conj eq_refl eq_refl)))
    as [Herr [Halert _]].
  split; [exact Herr | exact Halert].
Defined.

(** X10. [handleConnect] does not check the body of a 2xx answer: a body
    that parses to anything but [null] and has neither [mensaje] nor
    [comando_ssh] (an object without them, an array, a string, a number)
    still counts as success, [error] stays none, and the caller is shown
    the text "undefined" for both. *)
Theorem connect_2xx_missing_fields
    (vmName zone : string) (ipExternal : option string)
    (post : FetchOutcome ConnectReply) (data : Json) (st : ControllerState) :
  classify post = Succeeded (JsonValue data) ->
  JsValue.get data "mensaje" = Normal None ->
  JsValue.get data "comando_ssh" = Normal None ->
  error (final_state (handleConnect vmName zone ipExternal post) st) = None
  /\ events (handleConnect vmName zone ipExternal post) st
     = [SetIsLoading true; SetError None;
        Fetch "POST" (connect_url vmName zone ipExternal);
        Alert ("undefined" ++ String "010" "Comando: undefined");
        SetIsLoading false].
Proof.
  intros H Hm Hc. unfold final_state, events.
  rewrite (handleConnect_Succeeded _ _ _ _ _
             ("undefined" ++ String "010" "Comando: undefined") _ H);
    [split; reflexivity|].
  unfold connect_message. now rewrite Hm, Hc.
Qed.

Lemma connect_2xx_missing_fields_witness :
  error (final_state
           (handleConnect "web-1" "us-1" None
              (ok_with (JObject [("message", JString "ok")]))) loaded_state)
  = None
  /\ filter is_Alert
       (events (handleConnect "web-1" "us-1" None (ok_with (JArray [])))
          loaded_state)
     = [Alert ("undefined" ++ String "010" "Comando: undefined")].
Proof.
  destruct (connect_2xx_missing_fields "web-1" "us-1" None
              (ok_with (JObject [("message", JString "ok")])) _ loaded_state
              eq_refl eq_refl eq_refl) as [Herr _].
  destruct (connect_2xx_missing_fields "web-1" "us-1" None
              (ok_with (JArray [])) _ loaded_state eq_refl eq_refl eq_refl)
    as [_ Hev].
  split; [exact Herr | rewrite Hev; reflexivity].
Defined.

(** ** The callbacks of a card *)

Section CallbackFacts.

Lemma find_by_id_first (pre post : list VM) (vm : VM) :
  (forall v, In v pre -> id v <> id vm) ->
  find_by_id (pre ++ vm :: post)%list (id vm) = Some vm.
Proof.
  unfold find_by_id. induction pre as [|x pre IH]; intros H; simpl.
  - now rewrite String.eqb_refl.
  - destruct (String.eqb_spec (id x) (id vm)) as [E | _].
    + exfalso. apply (H x); [now left | exact E].
    + apply IH. intros v Hv. apply H. now right.
Qed.

Lemma find_by_id_none (l : list VM) (i : string) :
  (forall v, In v l -> id v <> i) -> find_by_id l i = None.
Proof.
  unfold find_by_id. induction l as [|x l IH]; intros H; simpl; [reflexivity|].
  destruct (String.eqb_spec (id x) i) as [E | _].
  - exfalso. apply (H x); [now left | exact E].
  - apply IH. intros v Hv. apply H. now right.
Qed.

Lemma find_by_id_NoDup (l : list VM) (vm : VM) :
  NoDup (map id l) -> In vm l -> find_by_id l (id vm) = Some vm.
Proof.
  intros Hnd Hin. apply in_split in Hin as [pre [post ->]].
  apply find_by_id_first. intros v Hv E.
  rewrite map_app in Hnd. simpl in Hnd. apply NoDup_remove_2 in Hnd.
  apply Hnd, in_or_app. left. rewrite <- E. now apply in_map.
Qed.

End CallbackFacts.

(** X11. The callbacks of a card act on the first VM of the snapshot
    that has the card's id: [onTogglePower] calls [handleTogglePower]
    with that VM's name and zone and the status the card passes, and
    [onConnect] calls [handleConnect] with that VM's name, zone and
    external address. *)
Theorem callbacks_target_first_match {T : Type}
    (pre post_vms : list VM) (vm : VM) (status : VMStatus)
    (post : FetchOutcome T) (refresh : FetchOutcome (list VM))
    (connect : FetchOutcome ConnectReply) (st : ControllerState) :
  vms st = (pre ++ vm :: post_vms)%list ->
  (forall v, In v pre -> id v <> id vm) ->
  onTogglePower (id vm) status post refresh st
  = handleTogglePower (name vm) (zoneRegion vm) status post refresh st
  /\ onConnect (id vm) connect st
     = handleConnect (name vm) (zoneRegion vm) (ipExternal vm) connect st.
Proof.
  intros Hvms Hpre. unfold onTogglePower, onConnect.
  rewrite Hvms, (find_by_id_first _ _ _ Hpre). split; reflexivity.
Qed.

(** With two VMs sharing an id, the card of the second one acts on the
    first. *)
Lemma callbacks_target_first_match_witness :
  filter is_Fetch
    (events (onConnect (id db_b) boom) (with_vms clashing_vms initial_state))
  = [Fetch "POST" "http://localhost:8000/api/vms/db-a/connect?zone=eu-1"].
Proof.
  destruct (callbacks_target_first_match (T := Json) [] [db_b] db_a Running
              boom boom boom (with_vms clashing_vms initial_state) eq_refl
              (fun v (H : In v []) => match H with end))
    as [_ Hconnect].
  unfold events. change (id db_b) with (id db_a). rewrite Hconnect.
  reflexivity.
Defined.

(** X12. When the ids of the snapshot are distinct, the callbacks of a
    displayed card act on the VM of that card: for every VM among the
    cards of the view, [onTogglePower] and [onConnect] with its id call
    the operation with its own name, zone and external address. *)
Theorem callbacks_target_displayed_card {T : Type}
    (vm : VM) (status : VMStatus)
    (post : FetchOutcome T) (refresh : FetchOutcome (list VM))
    (connect : FetchOutcome ConnectReply) (st : ControllerState) :
  NoDup (map id (vms st)) ->
  In vm (cards (render st)) ->
  onTogglePower (id vm) status post refresh st
  = handleTogglePower (name vm) (zoneRegion vm) status post refresh st
  /\ onConnect (id vm) connect st
     = handleConnect (name vm) (zoneRegion vm) (ipExternal vm) connect st.
Proof.
  intros Hnd Hin. cbn [render cards] in Hin.
  rewrite filteredVms_one_pass in Hin. apply filter_In in Hin as [Hin _].
  unfold onTogglePower, onConnect.
  rewrite (find_by_id_NoDup _ _ Hnd Hin). split; reflexivity.
Qed.

Lemma callbacks_target_displayed_card_witness :
  filter is_Fetch
    (events (onConnect "2" boom) (with_vms example_vms initial_state))
  = [Fetch "POST" "http://localhost:8000/api/vms/web-2/connect?zone=us-2"].
Proof.
  assert (Hnd : NoDup (map id (vms (with_vms example_vms initial_state)))).
  { repeat constructor; simpl; intuition discriminate. }
  destruct (callbacks_target_displayed_card (T := Json) web_2
              Running boom boom boom (with_vms example_vms initial_state) Hnd
              (or_intror (or_introl eq_refl)))
    as [_ Hconnect].
  unfold events. change "2" with (id web_2). rewrite Hconnect. reflexivity.
Defined.

(** X13. A callback whose id matches no VM of the snapshot does nothing:
    no request, no event, and the state, loading flag and error
    included, is untouched. *)
Theorem callbacks_unknown_id_noop {T : Type}
    (id' : string) (status : VMStatus)
    (post : FetchOutcome T) (refresh : FetchOutcome (list VM))
    (connect : FetchOutcome ConnectReply) (st : ControllerState) :
  (forall v, In v (vms st) -> id v <> id') ->
  onTogglePower id' status post refresh st = (Normal tt, st, [])
  /\ onConnect id' connect st = (Normal tt, st, []).
Proof.
  intros H. unfold onTogglePower, onConnect.
  rewrite (find_by_id_none _ _ H). split; reflexivity.
Qed.

Lemma callbacks_unknown_id_noop_witness :
  onConnect "3" boom loaded_state = (Normal tt, loaded_state, []).
Proof.
  refine (proj2 (callbacks_unknown_id_noop (T := Json) "3" Running boom boom boom
                   loaded_state _)).
  intros v [<- | [<- | []]]; discriminate.
Defined.

(** ** What is rendered after a load *)

(** X14. After a failed [fetchVms] the view shows the error banner with
    the stored message and nothing else: no card, no zone to choose, no
    loading overlay, and not the "no results" notice. *)
Theorem failed_fetch_view
    (net : FetchOutcome (list VM)) (f : Failure) (st : ControllerState) :
  classify net = Failed f ->
  render (final_state (fetchVms net) st)
  = {| zones := []; loadingOverlay := false;
       errorBanner := Some (stored_message f fetch_fallback network_fallback);
       cards := []; noResults := false |}.
Proof.
  intros H. unfold final_state. rewrite (fetchVms_Failed _ _ _ H).
  cbn [fst snd]. unfold render.
  cbn [vms error isLoading with_isLoading with_vms with_error truthy_error].
  assert (Ht : Js.truthy_string
                 (stored_message f fetch_fallback network_fallback) = true).
  { now apply or_string_not_empty. }
  rewrite Ht. reflexivity.
Qed.

Lemma failed_fetch_view_witness :
  render (final_state (fetchVms boom) loaded_state)
  = {| zones := []; loadingOverlay := false; errorBanner := Some "boom";
       cards := []; noResults := false |}.
Proof.
  exact (failed_fetch_view boom _ loaded_state eq_refl).
Defined.

(** X15. After a successful [fetchVms] the view shows no banner and no
    overlay, offers the zones of the new snapshot, and shows the VMs of
    the new snapshot that pass the filters, or the "no results" notice
    exactly when none passes: an empty result is told apart from a
    failure. *)
Theorem successful_fetch_view
    (net : FetchOutcome (list VM)) (data : list VM) (st : ControllerState) :
  classify net = Succeeded (JsonValue data) ->
  render (final_state (fetchVms net) st)
  = {| zones := allZones data; loadingOverlay := false; errorBanner := None;
       cards := filteredVms data (searchTerm st) (statusFilter st) (zoneFilter st);
       noResults :=
         match filteredVms data (searchTerm st) (statusFilter st) (zoneFilter st)
         with [] => true | _ :: _ => false end |}.
Proof.
  intros H. unfold final_state. rewrite (fetchVms_Succeeded _ _ _ H).
  cbn [fst snd]. unfold render.
  cbn [vms error isLoading searchTerm statusFilter zoneFilter
       with_isLoading with_vms with_error started truthy_error].
  now destruct (filteredVms data (searchTerm st) (statusFilter st) (zoneFilter st)).
Qed.

Lemma successful_fetch_view_witness :
  noResults
    (render (final_state (fetchVms (ok_with example_vms)) (searching "db")))
  = true
  /\ errorBanner
       (render (final_state (fetchVms (ok_with example_vms)) (searching "db")))
     = None.
Proof.
  rewrite (successful_fetch_view (ok_with example_vms) _ _ eq_refl).
  split; reflexivity.
Defined.

Section FilterFacts.

Lemma includes_empty (s : string) : Js.includes s "" = true.
Proof. apply includes_iff. now exists "", s. Qed.

Lemma filter_all {A : Type} (f : A -> bool) (l : list A) :
  (forall x, In x l -> f x = true) -> filter f l = l.
Proof.
  induction l as [|x l IH]; intros H; simpl; [reflexivity|].
  rewrite (H x (or_introl eq_refl)), IH; [reflexivity|].
  intros y Hy. apply H. now right.
Qed.

Lemma filter_none {A : Type} (f : A -> bool) (l : list A) :
  (forall x, In x l -> f x = false) -> filter f l = [].
Proof.
  induction l as [|x l IH]; intros H; simpl; [reflexivity|].
  rewrite (H x (or_introl eq_refl)). apply IH.
  intros y Hy. apply H. now right.
Qed.

Lemma filter_Subsequence_impl {A : Type} (f g : A -> bool) (l : list A) :
  (forall x, f x = true -> g x = true) ->
  Spec.Subsequence (filter f l) (filter g l).
Proof.
  intros H. induction l as [|x l IH]; simpl; [constructor|].
  destruct (f x) eqn:Ef.
  - rewrite (H x Ef). now constructor.
  - destruct (g x); [now constructor | assumption].
Qed.

Lemma default_filters_identity (l : list VM) :
  filteredVms l "" "Todos" "Todas" = l.
Proof.
  rewrite filteredVms_one_pass. apply filter_all. intros vm _.
  unfold passes, matches_search, matches_status, matches_zone.
  cbn [Js.toLowerCase]. now rewrite includes_empty.
Qed.

End FilterFacts.

(** X16. When the first load succeeds, the view shows every VM the server
    returned, in the server's order, with the zones of that snapshot to
    choose from; the "no results" notice appears only for an empty
    snapshot. *)
Theorem mount_success_view (net : FetchOutcome (list VM)) (data : list VM) :
  classify net = Succeeded (JsonValue data) ->
  render (mounted net)
  = {| zones := allZones data; loadingOverlay := false; errorBanner := None;
       cards := data;
       noResults := match data with [] => true | _ :: _ => false end |}.
Proof.
  intros H. unfold mounted, final_state. rewrite (fetchVms_Succeeded _ _ _ H).
  cbn [fst snd]. unfold render.
  cbn [vms error isLoading searchTerm statusFilter zoneFilter initial_state
       with_isLoading with_vms with_error started truthy_error].
  rewrite default_filters_identity. now destruct data.
Qed.

Lemma mount_success_view_witness :
  cards (render (mounted (ok_with example_vms))) = example_vms
  /\ zones (render (mounted (ok_with example_vms))) = ["us-1"; "us-2"].
Proof.
  rewrite (mount_success_view (ok_with example_vms) _ eq_refl).
  split; reflexivity.
Defined.

(** ** More on the two derived views *)

Section ViewFacts.

Lemma string_app_assoc (a b c : string) : (a ++ b) ++ c = a ++ b ++ c.
Proof. induction a as [|x a IH]; simpl; congruence. Qed.

(** A string that includes [a ++ b] includes [a] and includes [b]. *)
Lemma includes_app (s a b : string) :
  Js.includes s (a ++ b) = true ->
  Js.includes s a = true /\ Js.includes s b = true.
Proof.
  rewrite !includes_iff. intros [pre [post ->]]. split.
  - exists pre, (b ++ post). now rewrite string_app_assoc.
  - exists (pre ++ a), post. now rewrite !string_app_assoc.
Qed.

Lemma matches_zone_exact (z : string) (vm : VM) :
  z <> "Todas" -> matches_zone z vm = true -> zoneRegion vm = z.
Proof.
  intros Hz. unfold matches_zone. apply String.eqb_neq in Hz. rewrite Hz.
  cbn [orb]. apply String.eqb_eq.
Qed.

End ViewFacts.

(** X17. With the default filters (empty search term, Todos, Todas) the
    filtered view is the snapshot itself: every VM, in order. *)
Theorem default_filters_show_all (snapshot : list VM) :
  filteredVms snapshot "" "Todos" "Todas" = snapshot
  /\ cards (render (with_vms snapshot initial_state)) = snapshot.
Proof.
  split; [apply default_filters_identity|].
  cbn [render cards with_vms vms searchTerm statusFilter zoneFilter initial_state].
  apply default_filters_identity.
Qed.

(** X18. For Latin-1 names and search terms, typing more narrows the
    result: the VMs shown for a search term [s ++ t] are a subsequence of
    those shown for [s], and of those shown for [t], the other filters
    being equal.  (Not so beyond Latin-1: [search_beyond_Latin1].) *)
Theorem longer_search_narrows
    (vms : list VM) (s t statusFilter zoneFilter : string) :
  Spec.Subsequence (filteredVms vms (s ++ t) statusFilter zoneFilter)
    (filteredVms vms s statusFilter zoneFilter)
  /\ Spec.Subsequence (filteredVms vms (s ++ t) statusFilter zoneFilter)
       (filteredVms vms t statusFilter zoneFilter).
Proof.
  rewrite !filteredVms_one_pass.
  split; apply filter_Subsequence_impl; intros vm; unfold passes, matches_search;
    rewrite toLowerCase_app, !andb_true_iff; intros [[H Hs] Hz];
    apply includes_app in H as [Ha Hb]; auto.
Qed.

(** X19. For Latin-1 names and search terms, the letter case of the
    search term does not matter: two terms that differ at most in letter
    case select the same VMs.  (Not so beyond Latin-1:
    [search_beyond_Latin1].) *)
Theorem search_ignores_case_of_term
    (vms : list VM) (s s' statusFilter zoneFilter : string) :
  Spec.eq_ignoring_case s s' ->
  filteredVms vms s statusFilter zoneFilter
  = filteredVms vms s' statusFilter zoneFilter.
Proof.
  intros H. apply eq_ignoring_case_iff in H.
  unfold filteredVms. do 2 f_equal. apply filter_ext.
  intros vm. unfold matches_search. now rewrite H.
Qed.

Lemma search_ignores_case_of_term_witness :
  filteredVms example_vms "WEB-2" "Todos" "Todas"
  = filteredVms example_vms "web-2" "Todos" "Todas".
Proof.
  apply (search_ignores_case_of_term example_vms "WEB-2" "web-2").
  apply eq_ignoring_case_iff. reflexivity.
Defined.

(** X20. The status filter, unlike the search, is exact: a value that is
    neither the sentinel Todos nor the name of a status, such as a status
    name in lower case, selects no VM at all. *)
Theorem unknown_status_filter_empty
    (vms : list VM) (searchTerm statusFilter zoneFilter : string) :
  statusFilter <> "Todos" ->
  (forall s : VMStatus, VMStatus_string s <> statusFilter) ->
  filteredVms vms searchTerm statusFilter zoneFilter = [].
Proof.
  intros Hsentinel Hnone. rewrite filteredVms_one_pass. apply filter_none.
  intros vm _. unfold passes, matches_status.
  apply String.eqb_neq in Hsentinel. rewrite Hsentinel.
  specialize (Hnone (status vm)). apply String.eqb_neq in Hnone.
  rewrite Hnone. cbn [orb]. now rewrite andb_false_r.
Qed.

Lemma unknown_status_filter_empty_witness :
  filteredVms example_vms "" "running" "Todas" = [].
Proof.
  apply unknown_status_filter_empty; [discriminate|].
  intros []; discriminate.
Defined.

(** X21. The zones offered depend only on which zones occur in the
    snapshot: two snapshots with the same zones, in whatever order and
    however often, give the same list. *)
Theorem allZones_depends_on_zone_set (vms1 vms2 : list VM) :
  (forall z : string,
     In z (map zoneRegion vms1) <-> In z (map zoneRegion vms2)) ->
  allZones vms1 = allZones vms2.
Proof.
  intros H. apply allZones_unique; [apply allZones_strict|].
  intros z. rewrite allZones_In. split.
  - intros [vm [Hin <-]]. apply in_map with (f := zoneRegion) in Hin.
    apply H, in_map_iff in Hin as [vm' [E Hin']]. now exists vm'.
  - intros [vm [Hin <-]]. apply in_map with (f := zoneRegion) in Hin.
    apply H, in_map_iff in Hin as [vm' [E Hin']]. now exists vm'.
Qed.

Lemma allZones_depends_on_zone_set_witness :
  allZones (db_a :: rev example_vms ++ clashing_vms ++ example_vms)%list
  = allZones (example_vms ++ clashing_vms)%list.
Proof.
  apply allZones_depends_on_zone_set. intros z. simpl. tauto.
Defined.

(** X22. A zone filter other than the sentinel Todas is exact: every VM
    shown is in that zone, and a zone that does not occur in the snapshot
    (one that disappeared with the last load) shows nothing. *)
Theorem zone_filter_exact
    (vms : list VM) (searchTerm statusFilter zoneFilter : string) :
  zoneFilter <> "Todas" ->
  (forall vm : VM,
     In vm (filteredVms vms searchTerm statusFilter zoneFilter) ->
     zoneRegion vm = zoneFilter)
  /\ (~ In zoneFilter (allZones vms) ->
      filteredVms vms searchTerm statusFilter zoneFilter = []).
Proof.
  intros Hz. split.
  - intros vm Hin. rewrite filteredVms_one_pass in Hin.
    apply filter_In in Hin as [_ Hp]. unfold passes in Hp.
    apply andb_true_iff in Hp as [_ Hp]. now apply matches_zone_exact.
  - intros Hstale. rewrite filteredVms_one_pass. apply filter_none.
    intros vm Hin. unfold passes.
    destruct (matches_zone zoneFilter vm) eqn:E; [|apply andb_false_r].
    exfalso. apply Hstale, allZones_In. exists vm.
    split; [assumption | now apply matches_zone_exact].
Qed.

Lemma zone_filter_exact_witness :
  filteredVms example_vms "" "Todos" "eu-1" = [].
Proof.
  refine (proj2 (zone_filter_exact example_vms "" "Todos" "eu-1" _) _).
  - discriminate.
  - simpl. intuition discriminate.
Defined.

(** X23. Every zone offered by the zone view selects something: with the
    search box empty and the status filter on Todos, choosing a zone of
    [allZones] shows at least one VM. *)
Theorem offered_zone_selects (vms : list VM) (z : string) :
  In z (allZones vms) ->
  filteredVms vms "" "Todos" z <> [].
Proof.
  intros Hz. apply allZones_In in Hz as [vm [Hin <-]].
  assert (H : In vm (filteredVms vms "" "Todos" (zoneRegion vm))).
  { rewrite filteredVms_one_pass. apply filter_In. split; [assumption|].
    unfold passes, matches_search, matches_status, matches_zone.
    cbn [Js.toLowerCase]. rewrite includes_empty, !String.eqb_refl.
    cbn [orb andb]. apply orb_true_r. }
  intros E. rewrite E in H. exact H.
Qed.

Lemma offered_zone_selects_witness :
  filteredVms example_vms "" "Todos" "us-2" <> [].
Proof.
  apply offered_zone_selects. simpl. tauto.
Defined.

(** X24. A failed action keeps the list on screen: after a failing
    [handleTogglePower] or [handleConnect] the view shows the same cards
    and zones as before, with the error banner carrying the stored
    message, no overlay and no "no results" notice; only a failed load
    empties the list. *)
Theorem failed_action_view {T : Type}
    (vmName zone : string) (currentStatus : VMStatus)
    (ipExternal : option string)
    (toggle : FetchOutcome T) (refresh : FetchOutcome (list VM))
    (connect : FetchOutcome ConnectReply) (f1 f2 : Failure)
    (st : ControllerState) :
  classify toggle = Failed f1 ->
  classify connect = Failed f2 ->
  render (final_state
            (handleTogglePower vmName zone currentStatus toggle refresh) st)
  = {| zones := zones (render st); loadingOverlay := false;
       errorBanner :=
         Some (stored_message f1 (toggle_fallback vmName) (toggle_fallback vmName));
       cards := cards (render st); noResults := false |}
  /\ render (final_state (handleConnect vmName zone ipExternal connect) st)
     = {| zones := zones (render st); loadingOverlay := false;
          errorBanner :=
            Some (stored_message f2 (connect_fallback vmName)
                    (connect_fallback vmName));
          cards := cards (render st); noResults := false |}.
Proof.
  intros H1 H2. unfold final_state.
  rewrite (handleTogglePower_Failed _ _ _ _ _ _ _ H1),
    (handleConnect_Failed _ _ _ _ _ _ H2).
  cbn [fst snd]. unfold render.
  cbn [vms error isLoading searchTerm statusFilter zoneFilter zones cards
       with_isLoading with_error started truthy_error].
  assert (Ht1 : Js.truthy_string
                  (stored_message f1 (toggle_fallback vmName)
                     (toggle_fallback vmName)) = true).
  { now apply or_string_not_empty. }
  assert (Ht2 : Js.truthy_string
                  (stored_message f2 (connect_fallback vmName)
                     (connect_fallback vmName)) = true).
  { now apply or_string_not_empty. }
  rewrite Ht1, Ht2. cbn [negb andb].
  split; destruct (0 <? _)%nat; reflexivity.
Qed.

Lemma failed_action_view_witness :
  cards (render (final_state
                   (handleTogglePower "web-1" "us-1" Running (@boom Json)
                      (ok_with [])) (with_vms example_vms initial_state)))
  = example_vms
  /\ errorBanner
       (render (final_state (handleConnect "web-1" "us-1" None boom)
                  (with_vms example_vms initial_state)))
     = Some "boom".
Proof.
  destruct (failed_action_view "web-1" "us-1" Running None (@boom Json)
              (ok_with []) boom _ _ (with_vms example_vms initial_state)
              eq_refl eq_refl) as [Htoggle Hconnect].
  rewrite Htoggle, Hconnect. split; reflexivity.
Defined.
